(** * dns-sync: reconciliation engine of [sync.py]

    A shallow embedding of the classes [CloudflareAPI] and [DNSSync] of
    [sync.py] and the properties of its change classifier, record loader,
    record matcher, diff evaluator and orchestrator.

    Python dictionaries are [gmap string scalar], Python sets of paths are
    [gset string], exceptions are values of [exn] carried by the left side
    of a sum, and the collaborators the script talks to (git, the file
    system, the YAML parser, the provider's HTTP endpoint) are variables of
    a section. *)

From stdpp Require Import gmap strings list fin_maps.
From Stdlib Require Import ZArith Ascii String.

Local Open Scope string_scope.
Local Open Scope Z_scope.
Local Open Scope list_scope.

(** ** Python values *)

(** The scalars a record field can hold (spec section 6: strings, integers,
    booleans, and YAML/JSON null). *)
Inductive scalar : Type :=
  | SNone
  | SBool (b : bool)
  | SInt (z : Z)
  | SStr (s : string).

(** What [yaml.safe_load] can hand back for a whole document: a bare
    scalar (an empty document is [None]), a sequence, or a mapping from
    field names to scalars. *)
Inductive pyval : Type :=
  | Scalar (v : scalar)
  | Seq (l : list scalar)
  | Dict (m : gmap string scalar).

(** The exceptions the script meets.  All of them derive from Python's
    [Exception], so [except Exception] catches each one. *)
Inductive exn : Type :=
  | KeyError (key : string)
  | TypeError
  | AttributeError
  | IndexError
  | ValueError (msg : string)
  | CalledProcessError
  | ExternalError (what : string).

Definition result (A : Type) : Type := exn + A.

Definition ok {A} (a : A) : result A := inr a.
Definition raise {A} (e : exn) : result A := inl e.

#[global] Instance result_ret : MRet result := @ok.

#[global] Instance result_bind : MBind result := fun A B k r =>
  match r with
  | inl e => inl e
  | inr a => k a
  end.

#[global] Instance scalar_eq_dec : EqDecision scalar.
Proof. solve_decision. Defined.

#[global] Instance exn_eq_dec : EqDecision exn.
Proof. solve_decision. Defined.

(** [bool(v)]: Python truthiness. *)
Definition truthy (v : scalar) : bool :=
  match v with
  | SNone => false
  | SBool b => b
  | SInt z => negb (z =? 0)
  | SStr s => negb (String.eqb s "")
  end.

(** [a or b]. *)
Definition py_or (a b : scalar) : scalar := if truthy a then a else b.

(** [bool] is a subclass of [int]: [True == 1] and [False == 0]. *)
Definition as_int (v : scalar) : option Z :=
  match v with
  | SBool b => Some (Z.b2z b)
  | SInt z => Some z
  | _ => None
  end.

(** [a == b] on scalars. *)
Definition py_eq (a b : scalar) : bool :=
  match a, b with
  | SNone, SNone => true
  | SStr s, SStr t => String.eqb s t
  | SNone, _ | _, SNone | SStr _, _ | _, SStr _ => false
  | _, _ => bool_decide (as_int a = as_int b)
  end.

(** [a != b]. *)
Definition py_ne (a b : scalar) : bool := negb (py_eq a b).

(** [d.get(k)] and [d.get(k, dflt)] on a dictionary. *)
Definition dict_get (d : gmap string scalar) (k : string) : scalar :=
  default SNone (d !! k).

Definition dict_get_default (d : gmap string scalar) (k : string) (dflt : scalar)
  : scalar :=
  default dflt (d !! k).

(** [d[k]] on a dictionary. *)
Definition dict_getitem (d : gmap string scalar) (k : string) : result scalar :=
  match d !! k with
  | Some v => ok v
  | None => raise (KeyError k)
  end.

(** [v[k]] with a string key, for whatever the YAML parser returned:
    strings and lists only take integer indices, other scalars are not
    subscriptable. *)
Definition py_getitem (v : pyval) (k : string) : result scalar :=
  match v with
  | Dict d => dict_getitem d k
  | _ => raise TypeError
  end.

(** [v.get(k)]: only dictionaries have the method. *)
Definition py_get (v : pyval) (k : string) : result scalar :=
  match v with
  | Dict d => ok (dict_get d k)
  | _ => raise AttributeError
  end.

Definition py_get_default (v : pyval) (k : string) (dflt : scalar)
  : result scalar :=
  match v with
  | Dict d => ok (dict_get_default d k dflt)
  | _ => raise AttributeError
  end.

(** ** Python strings

    A [string] is read as the sequence of characters of a Python [str],
    for text whose code points are below 256. *)

(** [c.isspace()] for a code point below 256. *)
Definition is_space (c : ascii) : bool :=
  let n := nat_of_ascii c in
  ((9 <=? n) && (n <=? 13) || (28 <=? n) && (n <=? 32)
   || (n =? 133) || (n =? 160))%nat.

(** [s.startswith(p)]. *)
Fixpoint startswith (s p : string) {struct p} : bool :=
  match p, s with
  | EmptyString, _ => true
  | String a p', String b s' => Ascii.eqb a b && startswith s' p'
  | String _ _, EmptyString => false
  end.

(** [s.endswith(suf)]: [suf] is one of the tails of [s]. *)
Fixpoint endswith (s suf : string) : bool :=
  String.eqb s suf ||
  match s with
  | EmptyString => false
  | String _ s' => endswith s' suf
  end.

(** [needle in hay] for two strings: substring test. *)
Fixpoint str_contains (hay needle : string) : bool :=
  startswith hay needle ||
  match hay with
  | EmptyString => false
  | String _ hay' => str_contains hay' needle
  end.

(** [s.split(sep)] for a one-character separator. *)
Fixpoint split (sep : ascii) (s : string) : list string :=
  match s with
  | EmptyString => [EmptyString]
  | String c s' =>
      if Ascii.eqb c sep then EmptyString :: split sep s'
      else match split sep s' with
           | h :: t => String c h :: t
           | [] => [String c EmptyString]
           end
  end.

Fixpoint lstrip (s : string) : string :=
  match s with
  | EmptyString => EmptyString
  | String c s' => if is_space c then lstrip s' else s
  end.

Definition rstrip (s : string) : string := String.rev (lstrip (String.rev s)).

(** [s.strip()]. *)
Definition strip (s : string) : string := rstrip (lstrip s).

Definition tab : ascii := "009"%char.
Definition newline : ascii := "010"%char.

(** [l[i]] on a list. *)
Definition list_getitem {A} (l : list A) (i : nat) : result A :=
  match l !! i with
  | Some x => ok x
  | None => raise IndexError
  end.

(** [k in v] with a string [k]: key membership for a dictionary, substring
    test for a string, element test for a list, [TypeError] for [None],
    booleans and integers. *)
Definition py_contains (v : pyval) (k : string) : result bool :=
  match v with
  | Dict d => ok (bool_decide (is_Some (d !! k)))
  | Scalar (SStr s) => ok (str_contains s k)
  | Seq l => ok (existsb (fun x => py_eq (SStr k) x) l)
  | Scalar _ => raise TypeError
  end.

(** ** [DNSSync]: the pure parts *)

(** The value of [get_changed_files]: a dictionary with exactly the keys
    [added], [modified] and [deleted], each a set of paths. *)
Record changeset : Type := Changes {
  added : gset string;
  modified : gset string;
  deleted : gset string
}.

Definition no_changes : changeset := Changes ∅ ∅ ∅.

(** One turn of the loop over the lines of [git diff --name-status];
    [records_dir] is [str(self.records_dir)]. *)
Definition classify_line (records_dir : string) (changes : changeset)
    (line : string) : result changeset :=
  if String.eqb line "" then ok changes
  else
    let parts := split tab line in
    status ← list_getitem parts 0;
    filepath ← list_getitem parts 1;
    if negb (startswith filepath (records_dir +:+ "/")) then ok changes
    else if negb (endswith filepath ".yaml" || endswith filepath ".yml")
    then ok changes
    else if String.eqb status "A" then
      ok (Changes ({[filepath]} ∪ added changes) (modified changes)
                  (deleted changes))
    else if String.eqb status "M" then
      ok (Changes (added changes) ({[filepath]} ∪ modified changes)
                  (deleted changes))
    else if String.eqb status "D" then
      ok (Changes (added changes) (modified changes)
                  ({[filepath]} ∪ deleted changes))
    else ok changes.

Fixpoint classify_lines (records_dir : string) (changes : changeset)
    (lines : list string) : result changeset :=
  match lines with
  | [] => ok changes
  | line :: rest =>
      changes' ← classify_line records_dir changes line;
      classify_lines records_dir changes' rest
  end.

(** The lines the loop of [get_changed_files] walks over. *)
Definition report_lines (stdout : string) : list string :=
  split newline (strip stdout).

(** [get_changed_files] from the point where [result.stdout] is known. *)
Definition classify_report (records_dir stdout : string) : result changeset :=
  classify_lines records_dir no_changes (report_lines stdout).

(** The message of the [ValueError] of [load_yaml_record]. *)
Definition missing_field_msg (field filepath : string) : string :=
  "Missing required field '" +:+ field +:+ "' in " +:+ filepath.

Definition required : list string := ["name"; "type"; "content"].

(** The validation loop of [load_yaml_record]. *)
Fixpoint validate_fields (fields : list string) (record : pyval)
    (filepath : string) : result unit :=
  match fields with
  | [] => ok ()
  | field :: rest =>
      present ← py_contains record field;
      if negb present then raise (ValueError (missing_field_msg field filepath))
      else validate_fields rest record filepath
  end.

(** [load_yaml_record] from the point where [yaml.safe_load] returned. *)
Definition validate_record (record : pyval) (filepath : string)
  : result pyval :=
  _ ← validate_fields required record filepath;
  ok record.

(** [find_matching_record]; [and] evaluates its right operand only when the
    left one is true. *)
Fixpoint find_matching_record (yaml_record : pyval)
    (cf_records : list (gmap string scalar))
  : result (option (gmap string scalar)) :=
  match cf_records with
  | [] => ok None
  | cf_record :: rest =>
      cf_name ← dict_getitem cf_record "name";
      yaml_name ← py_getitem yaml_record "name";
      if py_eq cf_name yaml_name then
        cf_type ← dict_getitem cf_record "type";
        yaml_type ← py_getitem yaml_record "type";
        if py_eq cf_type yaml_type then ok (Some cf_record)
        else find_matching_record yaml_record rest
      else find_matching_record yaml_record rest
  end.

(** The two defaulting steps inside the loop of [records_differ]. *)
Definition default_ttl (field : string) (v : scalar) : scalar :=
  if String.eqb field "ttl" then py_or v (SInt 3600) else v.

Definition default_proxied (field : string) (v : scalar) : scalar :=
  if String.eqb field "proxied" then
    match v with SNone => SBool false | _ => v end
  else v.

(** The loop of [records_differ] over [fields]; [true] stands for the
    [return True] inside the loop, [false] for falling out of it. *)
Fixpoint fields_differ (fields : list string) (yaml_record : pyval)
    (cf_record : gmap string scalar) : result bool :=
  match fields with
  | [] => ok false
  | field :: rest =>
      yaml_value ← py_get yaml_record field;
      let cf_value := dict_get cf_record field in
      let yaml_value := default_ttl field yaml_value in
      let cf_value := default_ttl field cf_value in
      let yaml_value := default_proxied field yaml_value in
      let cf_value := default_proxied field cf_value in
      if py_ne yaml_value cf_value then ok true
      else fields_differ rest yaml_record cf_record
  end.

(** [x in ["MX", "SRV"]]. *)
Definition in_mx_srv (x : scalar) : bool :=
  py_eq x (SStr "MX") || py_eq x (SStr "SRV").

Definition records_differ (yaml_record : pyval)
    (cf_record : gmap string scalar) : result bool :=
  d ← fields_differ ["content"; "ttl"; "proxied"] yaml_record cf_record;
  if d : bool then ok true
  else
    ty ← py_getitem yaml_record "type";
    if in_mx_srv ty then
      yaml_priority ← py_get yaml_record "priority";
      if py_ne yaml_priority (dict_get cf_record "priority") then ok true
      else ok false
    else ok false.

(** ** The sync run: provider calls and console output *)

(** The provider requests [CloudflareAPI] sends. *)
Inductive request : Type :=
  | GetRecords
  | PostRecord (data : gmap string scalar)
  | PatchRecord (record_id : scalar) (data : gmap string scalar)
  | DeleteRecord (record_id : scalar).

Inductive phase : Type := Deletion | Addition | Modification.

(** The lines [sync] prints, one constructor per [print] of the source. *)
Inductive line : Type :=
  | LDetecting
  | LNoChangesDetected
  | LChangesDetected
  | LCount (ph : phase) (n : nat)
  | LBlank
  | LFetching
  | LFound (n : nat)
  | LProcessing (ph : phase) (filepath : string)
  | LDeleted (name type : scalar)
  | LNotInCloudflare (name type : scalar)
  | LAlreadyExists
  | LUpdated (name type : scalar)
  | LNoChangesNeeded
  | LNotFoundWillCreate
  | LCreated (name type : scalar)
  | LError (e : exn)
  | LSyncComplete.

(** What a run does that can be seen from outside, in order. *)
Inductive event : Type :=
  | EPrint (l : line)
  | ECall (r : request).

#[global] Instance phase_eq_dec : EqDecision phase.
Proof. solve_decision. Defined.

#[global] Instance request_eq_dec : EqDecision request.
Proof. solve_decision. Defined.

#[global] Instance line_eq_dec : EqDecision line.
Proof. solve_decision. Defined.

#[global] Instance event_eq_dec : EqDecision event.
Proof. solve_decision. Defined.

(** The state a run threads: the provider (of any type [P]) and the events
    so far. *)
Record state (P : Type) : Type := State {
  provider : P;
  trace : list event
}.
Arguments State {P} _ _.
Arguments provider {P} _.
Arguments trace {P} _.

Definition M (P A : Type) : Type := state P → result A * state P.

#[global] Instance M_ret {P} : MRet (M P) := fun A a s => (inr a, s).

#[global] Instance M_bind {P} : MBind (M P) := fun A B k m s =>
  match m s with
  | (inl e, s') => (inl e, s')
  | (inr a, s') => k a s'
  end.

Definition lift {P A} (r : result A) : M P A := fun s => (r, s).

Definition emit {P} (ev : event) : M P unit := fun s =>
  (inr (), State (provider s) (trace s ++ [ev])).

Definition print {P} (l : line) : M P unit := emit (EPrint l).

(** [try: body except Exception as e: handler(e)]. *)
Definition try_except {P A} (body : M P A) (handler : exn → M P A) : M P A :=
  fun s =>
    match body s with
    | (inl e, s') => handler e s'
    | (inr a, s') => (inr a, s')
    end.

(** [for x in xs: body(x)]. *)
Fixpoint for_each {P A} (xs : list A) (body : A → M P unit) : M P unit :=
  match xs with
  | [] => mret ()
  | x :: rest => _ ← body x; for_each rest body
  end.

(** [if cf_record:] for the optional dictionary [find_matching_record]
    returns: [None] and the empty dictionary are false. *)
Definition found (cf_record : option (gmap string scalar)) : bool :=
  match cf_record with
  | None => false
  | Some d => negb (bool_decide (d = ∅))
  end.

(** The dictionary [data] that [create_record] and [update_record] build
    from [record], in the evaluation order of the source. *)
Definition record_data (record : pyval) : result (gmap string scalar) :=
  ty ← py_getitem record "type";
  name ← py_getitem record "name";
  content ← py_getitem record "content";
  ttl ← py_get_default record "ttl" (SInt 3600);
  proxied ← py_get_default record "proxied" (SBool false);
  let data : gmap string scalar :=
    <["proxied" := proxied]> (<["ttl" := ttl]> (<["content" := content]>
      (<["name" := name]> (<["type" := ty]> ∅)))) in
  has_priority ← py_contains record "priority";
  if has_priority : bool then
    priority ← py_getitem record "priority";
    ok (<["priority" := priority]> data)
  else ok data.

Section Sync.

(** The provider behind [requests]: its state, the answer to a listing
    ([raise_for_status] and [json()["result"]] included) and to a write
    (create, update or delete), each with the provider's next state. *)
Context {P : Type}.
Variable http_list : P → result (list (gmap string scalar)) * P.
Variable http_write : request → P → result (gmap string scalar) * P.

(** Git and the file system: [git diff --name-status <base> HEAD],
    [git show HEAD~1:<path>], reading a file, and [yaml.safe_load]. *)
Variable git_diff : string → result string.
Variable git_show : string → result string.
Variable read_file : string → result string.
Variable yaml_safe_load : string → result pyval.

(** [str(self.records_dir)]. *)
Variable records_dir : string.

(** *** [CloudflareAPI] *)

Definition send (r : request) : M P (gmap string scalar) := fun s =>
  let '(resp, p') := http_write r (provider s) in
  (resp, State p' (trace s ++ [ECall r])).

Definition list_records : M P (list (gmap string scalar)) := fun s =>
  let '(resp, p') := http_list (provider s) in
  (resp, State p' (trace s ++ [ECall GetRecords])).

Definition create_record (record : pyval) : M P (gmap string scalar) :=
  data ← lift (record_data record);
  send (PostRecord data).

Definition update_record (record_id : scalar) (record : pyval)
  : M P (gmap string scalar) :=
  data ← lift (record_data record);
  send (PatchRecord record_id data).

Definition delete_record (record_id : scalar) : M P unit :=
  _ ← send (DeleteRecord record_id);
  mret ().

(** *** [DNSSync] *)

Definition empty_tree : string := "4b825dc642cb6eb9a060e54bf8d69288fbee4904".

(** The [try]/[except CalledProcessError] around [git diff]: the
    [stdout] of the comparison with the previous commit or, when that
    one fails, with the empty tree. *)
Definition diff_stdout : result string :=
  match git_diff "HEAD~1" with
  | inl CalledProcessError => git_diff empty_tree
  | r => r
  end.

Definition get_changed_files : result changeset :=
  stdout ← diff_stdout;
  classify_report records_dir stdout.

Definition load_yaml_record (filepath : string) : result pyval :=
  text ← read_file filepath;
  record ← yaml_safe_load text;
  validate_record record filepath.

(** The body of the [try] of the deletion loop. *)
Definition deletion_body (cf_records : list (gmap string scalar))
    (filepath : string) : M P unit :=
  text ← lift (git_show filepath);
  yaml_record ← lift (yaml_safe_load text);
  cf_record ← lift (find_matching_record yaml_record cf_records);
  if found cf_record then
    record_id ← lift (dict_getitem (default ∅ cf_record) "id");
    _ ← delete_record record_id;
    name ← lift (py_getitem yaml_record "name");
    ty ← lift (py_getitem yaml_record "type");
    print (LDeleted name ty)
  else
    name ← lift (py_getitem yaml_record "name");
    ty ← lift (py_getitem yaml_record "type");
    print (LNotInCloudflare name ty).

(** The body of the [try] of the addition loop. *)
Definition addition_body (cf_records : list (gmap string scalar))
    (filepath : string) : M P unit :=
  yaml_record ← lift (load_yaml_record filepath);
  cf_record ← lift (find_matching_record yaml_record cf_records);
  if found cf_record then
    _ ← print LAlreadyExists;
    differ ← lift (records_differ yaml_record (default ∅ cf_record));
    if differ : bool then
      record_id ← lift (dict_getitem (default ∅ cf_record) "id");
      _ ← update_record record_id yaml_record;
      name ← lift (py_getitem yaml_record "name");
      ty ← lift (py_getitem yaml_record "type");
      print (LUpdated name ty)
    else print LNoChangesNeeded
  else
    _ ← create_record yaml_record;
    name ← lift (py_getitem yaml_record "name");
    ty ← lift (py_getitem yaml_record "type");
    print (LCreated name ty).

(** The body of the [try] of the modification loop. *)
Definition modification_body (cf_records : list (gmap string scalar))
    (filepath : string) : M P unit :=
  yaml_record ← lift (load_yaml_record filepath);
  cf_record ← lift (find_matching_record yaml_record cf_records);
  if found cf_record then
    differ ← lift (records_differ yaml_record (default ∅ cf_record));
    if differ : bool then
      record_id ← lift (dict_getitem (default ∅ cf_record) "id");
      _ ← update_record record_id yaml_record;
      name ← lift (py_getitem yaml_record "name");
      ty ← lift (py_getitem yaml_record "type");
      print (LUpdated name ty)
    else print LNoChangesNeeded
  else
    _ ← print LNotFoundWillCreate;
    _ ← create_record yaml_record;
    name ← lift (py_getitem yaml_record "name");
    ty ← lift (py_getitem yaml_record "type");
    print (LCreated name ty).

Definition file_body (ph : phase) : list (gmap string scalar) → string → M P unit :=
  match ph with
  | Deletion => deletion_body
  | Addition => addition_body
  | Modification => modification_body
  end.

(** One turn of one of the three loops of [sync]: the announcement, the
    guarded body, the blank line. *)
Definition process_file (ph : phase) (cf_records : list (gmap string scalar))
    (filepath : string) : M P unit :=
  _ ← print (LProcessing ph filepath);
  _ ← try_except (file_body ph cf_records filepath)
                 (fun e => print (LError e));
  print LBlank.

(** [not any(changes.values())]. *)
Definition nothing_changed (changes : changeset) : bool :=
  bool_decide (added changes = ∅) && bool_decide (modified changes = ∅)
  && bool_decide (deleted changes = ∅).

Definition sync : M P unit :=
  _ ← print LDetecting;
  changes ← lift get_changed_files;
  if nothing_changed changes then print LNoChangesDetected
  else
    _ ← print LChangesDetected;
    _ ← print (LCount Addition (size (added changes)));
    _ ← print (LCount Modification (size (modified changes)));
    _ ← print (LCount Deletion (size (deleted changes)));
    _ ← print LBlank;
    _ ← print LFetching;
    cf_records ← list_records;
    _ ← print (LFound (List.length cf_records));
    _ ← print LBlank;
    _ ← for_each (elements (deleted changes))
                 (process_file Deletion cf_records);
    _ ← for_each (elements (added changes))
                 (process_file Addition cf_records);
    _ ← for_each (elements (modified changes))
                 (process_file Modification cf_records);
    print LSyncComplete.

(** The events one file contributes to a run: what [process_file] appends
    to the trace from some state. *)
Definition block_of (ph : phase) (cf_records : list (gmap string scalar))
    (filepath : string) (b : list event) : Prop :=
  ∃ s s', process_file ph cf_records filepath s = (inr (), s')
          ∧ trace s' = (trace s ++ b)%list.

End Sync.

(** ** The shape of a run's report *)

Module Report.

(** What may happen between the announcement of a file and its outcome
    line: provider writes and the two advisory lines. *)
Definition is_notice (ev : event) : bool :=
  match ev with
  | ECall (PostRecord _) | ECall (PatchRecord _ _) | ECall (DeleteRecord _) => true
  | EPrint LAlreadyExists | EPrint LNotFoundWillCreate => true
  | _ => false
  end.

(** The lines that close the processing of a file without an error. *)
Definition is_success (l : line) : bool :=
  match l with
  | LDeleted _ _ | LNotInCloudflare _ _ | LUpdated _ _ | LNoChangesNeeded
  | LCreated _ _ => true
  | _ => false
  end.

(** The outcome lines: a success line or the error caught for the file. *)
Definition is_outcome (l : line) : bool :=
  match l with
  | LError _ => true
  | _ => is_success l
  end.

(** A file's block: its announcement, notices, one outcome line, a blank
    line. *)
Definition block_shape (ph : phase) (filepath : string) (b : list event)
  : Prop :=
  ∃ mid o, b = (EPrint (LProcessing ph filepath) :: mid
                ++ [EPrint o; EPrint LBlank])%list
           ∧ Forall (fun ev => is_notice ev = true) mid
           ∧ is_outcome o = true.

(** What [sync] emits before the first file. *)
Definition preamble (changes : changeset)
    (cf_records : list (gmap string scalar)) : list event :=
  [ EPrint LDetecting; EPrint LChangesDetected;
    EPrint (LCount Addition (size (added changes)));
    EPrint (LCount Modification (size (modified changes)));
    EPrint (LCount Deletion (size (deleted changes)));
    EPrint LBlank; EPrint LFetching; ECall GetRecords;
    EPrint (LFound (List.length cf_records)); EPrint LBlank ].

(** A computation that only emits notices, whatever it returns. *)
Definition notices_only {P A} (m : M P A) : Prop :=
  ∀ s, ∃ mid, trace (snd (m s)) = (trace s ++ mid)%list
              ∧ Forall (fun ev => is_notice ev = true) mid.

(** A computation that emits notices and then, unless it raises, one
    success line. *)
Definition ends_in_success {P} (m : M P unit) : Prop :=
  ∀ s, ∃ mid, Forall (fun ev => is_notice ev = true) mid ∧
    match m s with
    | (inr _, s') => ∃ o, is_success o = true
                          ∧ trace s' = (trace s ++ mid ++ [EPrint o])%list
    | (inl _, s') => trace s' = (trace s ++ mid)%list
    end.

End Report.

(** ** The change classifier in the words of the specification *)

Module ChangeSpec.







End ChangeSpec.

(** ** Record identity in the words of the specification *)

Module MatchSpec.

(** The record [r] has the name [n] and the type [t], both strings. *)
Definition identity (r : gmap string scalar) (n t : string) : Prop :=
  r !! "name" = Some (SStr n) ∧ r !! "type" = Some (SStr t).

Definition has_identity (r : gmap string scalar) : Prop :=
  ∃ n t, identity r n t.

(** Some substring of [s] is [k]. *)
Definition substring_of (k s : string) : Prop :=
  ∃ before after, s = before +:+ k +:+ after.

End MatchSpec.

(** ** The diff evaluator in the words of the specification *)

Module DiffSpec.

(** The value a field is compared at: absent and [None] are the same. *)
Definition field (r : gmap string scalar) (k : string) : scalar :=
  default SNone (r !! k).

(** The number a boolean or an integer stands for: [False] is 0 and [True]
    is 1. *)
Definition number (v : scalar) : option Z :=
  match v with
  | SBool false => Some 0
  | SBool true => Some 1
  | SInt z => Some z
  | _ => None
  end.

(** Two values are equal: both are [None], or the same string, or they
    stand for the same number. *)
Inductive equal : scalar → scalar → Prop :=
  | equal_none : equal SNone SNone
  | equal_string (s : string) : equal (SStr s) (SStr s)
  | equal_number (a b : scalar) (z : Z) :
      number a = Some z → number b = Some z → equal a b.

(** [ttl] with an absent or falsy value ([None], [False], 0, the empty
    string) replaced by 3600. *)
Definition ttl_of (r : gmap string scalar) : scalar :=
  match field r "ttl" with
  | SNone | SBool false | SInt 0 | SStr EmptyString => SInt 3600
  | v => v
  end.

(** [proxied] with an absent value replaced by [False]. *)
Definition proxied_of (r : gmap string scalar) : scalar :=
  match field r "proxied" with
  | SNone => SBool false
  | v => v
  end.

(** The definition's type is MX or SRV. *)
Definition mx_or_srv (r : gmap string scalar) : Prop :=
  r !! "type" = Some (SStr "MX") ∨ r !! "type" = Some (SStr "SRV").

Definition content_differs (y cf : gmap string scalar) : Prop :=
  ¬ equal (field y "content") (field cf "content").

Definition ttl_differs (y cf : gmap string scalar) : Prop :=
  ¬ equal (ttl_of y) (ttl_of cf).

Definition proxied_differs (y cf : gmap string scalar) : Prop :=
  ¬ equal (proxied_of y) (proxied_of cf).

Definition priority_differs (y cf : gmap string scalar) : Prop :=
  ¬ equal (field y "priority") (field cf "priority").

Definition differs (y cf : gmap string scalar) : Prop :=
  content_differs y cf ∨ ttl_differs y cf ∨ proxied_differs y cf
  ∨ (mx_or_srv y ∧ priority_differs y cf).

(** Two dictionaries that agree on every key but [priority]. *)
Definition same_but_priority (r r' : gmap string scalar) : Prop :=
  ∀ k, k ≠ "priority" → r' !! k = r !! k.

End DiffSpec.

(** ** What the loop of [records_differ] compares *)

Module DiffCode.

(** The [ttl] of a record after [value or 3600]. *)
Definition ttl_of (r : gmap string scalar) : scalar :=
  if truthy (DiffSpec.field r "ttl") then DiffSpec.field r "ttl"
  else SInt 3600.

End DiffCode.

(** ** [main] *)

(** The two lines [main] prints itself. *)
Inductive main_line : Type :=
  | LMissingEnvironment
  | LFatal (e : exn).

(** What a whole invocation does: the events of [sync] and the lines of
    [main]. *)
Inductive main_event : Type :=
  | InSync (ev : event)
  | InMain (l : main_line).

(** [not v] for the optional string [os.getenv] returns. *)
Definition unset (v : option string) : bool :=
  match v with
  | None => true
  | Some s => String.eqb s ""
  end.

Section Main.

(** The provider as [CloudflareAPI(api_token, zone_id)] reaches it, the
    environment, and the collaborators of [DNSSync]. *)
Context {P : Type}.
Variable http_list_as :
  string → string → P → result (list (gmap string scalar)) * P.
Variable http_write_as :
  string → string → request → P → result (gmap string scalar) * P.
Variable getenv : string → option string.
Variable git_diff : string → result string.
Variable git_show : string → result string.
Variable read_file : string → result string.
Variable yaml_safe_load : string → result pyval.

(** [main]: the exit status of the process ([sys.exit(1)] or the normal
    end of the script), the provider afterwards, and the events. *)
Definition main (p : P) : nat * P * list main_event :=
  let api_token := getenv "CLOUDFLARE_API_TOKEN" in
  let zone_id := getenv "CLOUDFLARE_ZONE_ID" in
  if unset api_token || unset zone_id then
    (1%nat, p, [InMain LMissingEnvironment])
  else
    let token := default "" api_token in
    let zone := default "" zone_id in
    match sync (http_list_as token zone) (http_write_as token zone)
               git_diff git_show read_file yaml_safe_load "records"
               (State p []) with
    | (inr _, s) => (0%nat, provider s, InSync <$> trace s)
    | (inl e, s) =>
        (1%nat, provider s, (InSync <$> trace s) ++ [InMain (LFatal e)])
    end.

End Main.

(** The outcome line after a provider call: the success line, or the error
    the provider answered with. *)
Definition line_after {A} (r : result A) (success : line) : line :=
  match r with
  | inr _ => success
  | inl e => LError e
  end.

(** ** Counting provider calls *)

Module Calls.

(** The requests that change the zone. *)
Definition is_write (ev : event) : bool :=
  match ev with
  | ECall (PostRecord _) | ECall (PatchRecord _ _) | ECall (DeleteRecord _) => true
  | _ => false
  end.




Definition writes (evs : list event) : nat :=
  List.length (List.filter is_write evs).


(** The writes among the events of a whole invocation. *)
Definition main_writes (evs : list main_event) : nat :=
  List.length
    (List.filter (fun ev => match ev with
                            | InSync e => is_write e
                            | InMain _ => false
                            end) evs).


(** A computation that raises nothing but what the provider answered to
    one of its requests. *)
Definition provider_only {P A}
    (http_write : request → P → result (gmap string scalar) * P)
    (m : M P A) : Prop :=
  ∀ s e s1, m s = (inl e, s1) → ∃ r p, fst (http_write r p) = inl e.

(** A live record with the three keys [sync] reads from it. *)
Definition live_ok (cf : gmap string scalar) : Prop :=
  is_Some (cf !! "name") ∧ is_Some (cf !! "type") ∧ is_Some (cf !! "id").

(** The fields [create_record] and [update_record] send. *)
Definition sent_fields : list string :=
  ["type"; "name"; "content"; "ttl"; "proxied"; "priority"].

End Calls.

(** ** Concrete records and reports used as test inputs *)

Module Sample.

(** A definition with only the required fields. *)
Definition api_def : gmap string scalar :=
  {[ "name" := SStr "api.example.com"; "type" := SStr "A";
     "content" := SStr "1.2.3.4" ]}.

(** The live record of the provider for the same identity. *)
Definition api_live : gmap string scalar :=
  {[ "id" := SStr "rec-1"; "name" := SStr "api.example.com";
     "type" := SStr "A"; "content" := SStr "1.2.3.4";
     "ttl" := SInt 3600; "proxied" := SBool false ]}.

Definition mail_live : gmap string scalar :=
  {[ "id" := SStr "rec-2"; "name" := SStr "example.com";
     "type" := SStr "MX"; "content" := SStr "mail.example.com";
     "ttl" := SInt 3600; "proxied" := SBool false; "priority" := SInt 10 ]}.

(** A definition of type A that nevertheless carries a priority. *)
Definition api_def_with_priority : gmap string scalar :=
  <["priority" := SInt 10]> api_def.

(** One line of [git diff --name-status]. *)
Definition report_line (status path : string) : string :=
  status +:+ String tab path +:+ String newline "".




(** An MX definition without a priority. *)
Definition mail_def : gmap string scalar :=
  {[ "name" := SStr "example.com"; "type" := SStr "MX";
     "content" := SStr "mail.example.com" ]}.

(** The last definition of a record whose file was deleted. *)
Definition old_def : gmap string scalar :=
  {[ "name" := SStr "old.example.com"; "type" := SStr "A";
     "content" := SStr "5.6.7.8" ]}.

(** A small world: the files of the working tree, the one file of the
    previous commit, a YAML parser that knows their texts, and a provider
    that holds two records and counts the writes it accepts. *)
Definition read_file (path : string) : result string :=
  if String.eqb path "records/api.yaml" then ok "api"
  else if String.eqb path "records/mail.yaml" then ok "mail"
  else if String.eqb path "records/broken.yaml" then ok "broken"
  else if String.eqb path "records/note.yaml" then ok "name type content"
  else if String.eqb path "records/empty.yaml" then ok ""
  else raise (ExternalError "FileNotFoundError").

Definition git_show (path : string) : result string :=
  if String.eqb path "records/old.yaml" then ok "old"
  else raise CalledProcessError.

Definition yaml_safe_load (text : string) : result pyval :=
  if String.eqb text "api" then ok (Dict api_def)
  else if String.eqb text "mail" then ok (Dict mail_def)
  else if String.eqb text "old" then ok (Dict old_def)
  else if String.eqb text "broken" then ok (Dict (delete "content" api_def))
  else if String.eqb text "" then ok (Scalar SNone)
  else ok (Scalar (SStr text)).

Definition snapshot : list (gmap string scalar) := [mail_live; api_live].

Definition http_list (writes : nat)
  : result (list (gmap string scalar)) * nat :=
  (ok snapshot, writes).

Definition http_write (r : request) (writes : nat)
  : result (gmap string scalar) * nat :=
  (ok ∅, S writes).

(** One deleted file, one added file and three modified files, of which
    one lacks [content]. *)
Definition run_report : string :=
  report_line "D" "records/old.yaml" +:+ report_line "A" "records/api.yaml"
  +:+ report_line "M" "records/mail.yaml"
  +:+ report_line "M" "records/broken.yaml"
  +:+ report_line "M" "records/note.yaml".

Definition git_diff (base : string) : result string := ok run_report.

Definition run_changes : changeset :=
  Changes {["records/api.yaml"]}
          ({["records/mail.yaml"]} ∪ {["records/broken.yaml"]}
           ∪ {["records/note.yaml"]})
          {["records/old.yaml"]}.

Definition run : result unit * state nat :=
  sync http_list http_write git_diff git_show read_file yaml_safe_load
       "records" (State 0%nat []).


Definition http_list_down (writes : nat)
  : result (list (gmap string scalar)) * nat :=
  (raise (ExternalError "HTTPError"), writes).

Definition old_live : gmap string scalar :=
  <["id" := SStr "rec-3"]> old_def.


Definition getenv (name : string) : option string :=
  if String.eqb name "CLOUDFLARE_API_TOKEN" then Some "token"
  else if String.eqb name "CLOUDFLARE_ZONE_ID" then Some "zone"
  else None.

Definition no_env (name : string) : option string := None.

End Sample.

(** * Properties *)

(** ** Python equality *)


Lemma py_eq_str s t : py_eq (SStr s) (SStr t) = true ↔ s = t.
Proof. simpl. apply String.eqb_eq. Qed.

Lemma py_eq_str_false s t : py_eq (SStr s) (SStr t) = false ↔ s ≠ t.
Proof. simpl. apply String.eqb_neq. Qed.

Lemma py_eq_none_l v : py_eq SNone v = true ↔ v = SNone.
Proof. destruct v; simpl; split; congruence. Qed.

Lemma py_eq_none_r v : py_eq v SNone = true ↔ v = SNone.
Proof. destruct v; simpl; split; congruence. Qed.

Lemma in_mx_srv_str v :
  in_mx_srv v = true ↔ v = SStr "MX" ∨ v = SStr "SRV".
Proof.
  unfold in_mx_srv. rewrite orb_true_iff.
  destruct v as [| b | z | s]; simpl;
    try (split; [intros [?|?]; discriminate | intros [?|?]; discriminate]).
  split.
  - intros [H|H]; apply String.eqb_eq in H; subst; auto.
  - intros [H|H]; injection H as ->; auto.
Qed.

(** ** The diff evaluator *)

Lemma fields_differ_dict (y cf : gmap string scalar) :
  fields_differ ["content"; "ttl"; "proxied"] (Dict y) cf
  = ok (py_ne (DiffSpec.field y "content") (DiffSpec.field cf "content")
        || py_ne (DiffCode.ttl_of y) (DiffCode.ttl_of cf)
        || py_ne (DiffSpec.proxied_of y) (DiffSpec.proxied_of cf)).
Proof.
  unfold fields_differ, py_get, mbind, result_bind, ok.
  unfold default_ttl, default_proxied. simpl String.eqb. cbv iota.
  change (dict_get ?r ?k) with (DiffSpec.field r k).
  unfold DiffCode.ttl_of, DiffSpec.proxied_of, py_or.
  destruct (py_ne (DiffSpec.field y "content") _); [done |].
  destruct (py_ne (if truthy (DiffSpec.field y "ttl") then _ else _) _); [done |].
  destruct (DiffSpec.field y "proxied"), (DiffSpec.field cf "proxied");
    simpl; try done; match goal with |- context [py_ne ?a ?b] => by destruct (py_ne a b) end.
Qed.

Lemma records_differ_dict (y cf : gmap string scalar) :
  records_differ (Dict y) cf =
  if py_ne (DiffSpec.field y "content") (DiffSpec.field cf "content")
     || py_ne (DiffCode.ttl_of y) (DiffCode.ttl_of cf)
     || py_ne (DiffSpec.proxied_of y) (DiffSpec.proxied_of cf)
  then ok true
  else match y !! "type" with
       | None => raise (KeyError "type")
       | Some t =>
           ok (in_mx_srv t
               && py_ne (DiffSpec.field y "priority")
                        (DiffSpec.field cf "priority"))
       end.
Proof.
  unfold records_differ. rewrite fields_differ_dict.
  unfold mbind, result_bind, ok, py_getitem, dict_getitem, py_get.
  destruct (_ || _ || _); [done |].
  destruct (y !! "type") as [t |]; [| done]. unfold ok.
  change (dict_get ?r ?k) with (DiffSpec.field r k).
  destruct (in_mx_srv t); [| done].
  by destruct (py_ne _ _).
Qed.

Lemma mx_or_srv_in (y : gmap string scalar) t :
  y !! "type" = Some t → (DiffSpec.mx_or_srv y ↔ in_mx_srv t = true).
Proof.
  intros Ht. unfold DiffSpec.mx_or_srv. rewrite Ht, in_mx_srv_str.
  split; (intros [H|H]; [left | right]; congruence).
Qed.

Lemma same_but_priority_field (r r' : gmap string scalar) k :
  DiffSpec.same_but_priority r r' → k ≠ "priority" →
  DiffSpec.field r' k = DiffSpec.field r k.
Proof. intros H Hk. unfold DiffSpec.field. by rewrite (H k Hk). Qed.

(** For a type other than MX and SRV the verdict does not look at
    [priority], on either side. *)
Lemma priority_irrelevant (y y' cf cf' : gmap string scalar) :
  ¬ DiffSpec.mx_or_srv y →
  DiffSpec.same_but_priority y y' → DiffSpec.same_but_priority cf cf' →
  records_differ (Dict y') cf' = records_differ (Dict y) cf.
Proof.
  intros Hty Hy Hcf. rewrite !records_differ_dict.
  unfold DiffCode.ttl_of, DiffSpec.proxied_of.
  rewrite !(same_but_priority_field y y'), !(same_but_priority_field cf cf')
    by done.
  rewrite (Hy "type") by done.
  destruct (_ || _ || _); [done |].
  destruct (y !! "type") as [t |] eqn:Ht; [| done].
  destruct (in_mx_srv t) eqn:Hin; [| done].
  exfalso. apply Hty. by apply (mx_or_srv_in y t).
Qed.

(** Python's [==] on scalars is the equality of the specification. *)
Lemma number_as_int v : DiffSpec.number v = as_int v.
Proof. by destruct v as [| [] | z | s]. Qed.

Lemma py_eq_equal a b : py_eq a b = true ↔ DiffSpec.equal a b.
Proof.
  split.
  - intros H.
    destruct a as [| ba | za | sa], b as [| bb | zb | sb]; simpl in H;
      try discriminate.
    + constructor.
    + apply bool_decide_eq_true in H.
      eapply DiffSpec.equal_number; rewrite number_as_int;
        [reflexivity | by symmetry].
    + apply bool_decide_eq_true in H.
      eapply DiffSpec.equal_number; rewrite number_as_int;
        [reflexivity | by symmetry].
    + apply bool_decide_eq_true in H.
      eapply DiffSpec.equal_number; rewrite number_as_int;
        [reflexivity | by symmetry].
    + apply bool_decide_eq_true in H.
      eapply DiffSpec.equal_number; rewrite number_as_int;
        [reflexivity | by symmetry].
    + apply String.eqb_eq in H as ->. constructor.
  - intros [| s | a' b' z Ha Hb]; [done | apply String.eqb_refl |].
    rewrite number_as_int in Ha, Hb.
    destruct a' as [| ba | za | sa], b' as [| bb | zb | sb]; simpl in *;
      try discriminate; apply bool_decide_eq_true; congruence.
Qed.

Lemma py_ne_equal a b : py_ne a b = true ↔ ¬ DiffSpec.equal a b.
Proof.
  unfold py_ne. rewrite <- py_eq_equal.
  destruct (py_eq a b); simpl; split; done.
Qed.

(** [value or 3600] is the replacement of the falsy values by 3600. *)
Lemma ttl_of_spec (r : gmap string scalar) :
  DiffCode.ttl_of r = DiffSpec.ttl_of r.
Proof.
  unfold DiffCode.ttl_of, DiffSpec.ttl_of.
  destruct (DiffSpec.field r "ttl") as [| [] | [| p | p] | [| c s]]; done.
Qed.

Lemma equal_int a b : DiffSpec.equal (SInt a) (SInt b) ↔ a = b.
Proof.
  split.
  - inversion 1 as [| | ? ? z Ha Hb]; simpl in *; congruence.
  - intros ->. by apply (DiffSpec.equal_number _ _ b).
Qed.

Lemma equal_bool a b : DiffSpec.equal (SBool a) (SBool b) ↔ a = b.
Proof.
  split.
  - inversion 1 as [| | ? ? z Ha Hb]. destruct a, b; simpl in *; congruence.
  - intros ->. destruct b;
      [by apply (DiffSpec.equal_number _ _ 1)
      | by apply (DiffSpec.equal_number _ _ 0)].
Qed.

Lemma equal_string_iff s t : DiffSpec.equal (SStr s) (SStr t) ↔ s = t.
Proof.
  split.
  - inversion 1 as [| | ? ? z Ha Hb]; [done | discriminate].
  - intros ->. constructor.
Qed.

Lemma equal_none_l v : DiffSpec.equal SNone v ↔ v = SNone.
Proof.
  split.
  - inversion 1 as [| | ? ? z Ha Hb]; [done | discriminate].
  - intros ->. constructor.
Qed.

Lemma equal_none_r v : DiffSpec.equal v SNone ↔ v = SNone.
Proof.
  split.
  - inversion 1 as [| | ? ? z Ha Hb]; [done | discriminate].
  - intros ->. constructor.
Qed.

(** The verdict as one boolean, and what it means. *)
Lemma records_differ_verdict (y cf : gmap string scalar) t :
  y !! "type" = Some t →
  ∃ b, records_differ (Dict y) cf = ok b ∧ (b = true ↔ DiffSpec.differs y cf).
Proof.
  intros Ht.
  exists (py_ne (DiffSpec.field y "content") (DiffSpec.field cf "content")
          || py_ne (DiffCode.ttl_of y) (DiffCode.ttl_of cf)
          || py_ne (DiffSpec.proxied_of y) (DiffSpec.proxied_of cf)
          || in_mx_srv t
             && py_ne (DiffSpec.field y "priority")
                      (DiffSpec.field cf "priority")).
  split.
  - rewrite records_differ_dict, Ht. by destruct (_ || _ || _).
  - rewrite !orb_true_iff, andb_true_iff, !py_ne_equal, !ttl_of_spec.
    rewrite <- (mx_or_srv_in y t Ht).
    unfold DiffSpec.differs, DiffSpec.content_differs, DiffSpec.ttl_differs,
      DiffSpec.proxied_differs, DiffSpec.priority_differs.
    tauto.
Qed.

(** C1. For a record definition [y] (a mapping that has a [type]) and a
    matched live record [cf], [records_differ] returns a verdict, and the
    verdict is true exactly when the contents differ, or the ttl values
    differ once an absent or falsy side is read as 3600, or the proxied
    values differ once an absent side is read as false, or the type is MX or
    SRV and the priorities differ as they stand; it is false exactly when
    none of these holds.  Two values differ when they are not both [None],
    not the same string and not the same number: string contents differ
    when the strings do, integer ttl values, boolean proxied values and
    integer priorities differ when the integers or booleans do, an absent
    ttl differs from every integer but 3600 and 0, and an absent proxied
    from [True] only.  Priorities absent on both sides are equal and a
    priority absent on one side only is a difference; and for a type other
    than MX and SRV the priorities of the two records do not change the
    result. *)
Theorem records_differ_spec (y cf : gmap string scalar) :
  is_Some (y !! "type") →
  (∃ b, records_differ (Dict y) cf = ok b)
  ∧ (records_differ (Dict y) cf = ok true ↔ DiffSpec.differs y cf)
  ∧ (records_differ (Dict y) cf = ok false ↔ ¬ DiffSpec.differs y cf)
  ∧ (∀ s t, y !! "content" = Some (SStr s) → cf !! "content" = Some (SStr t) →
       (DiffSpec.content_differs y cf ↔ s ≠ t))
  ∧ (∀ a b, y !! "ttl" = Some (SInt a) → cf !! "ttl" = Some (SInt b) →
       a ≠ 0 → b ≠ 0 → (DiffSpec.ttl_differs y cf ↔ a ≠ b))
  ∧ (∀ b, y !! "ttl" = None → cf !! "ttl" = Some (SInt b) →
       (DiffSpec.ttl_differs y cf ↔ b ≠ 3600 ∧ b ≠ 0))
  ∧ (∀ a, y !! "ttl" = Some (SInt a) → cf !! "ttl" = None →
       (DiffSpec.ttl_differs y cf ↔ a ≠ 3600 ∧ a ≠ 0))
  ∧ (∀ a b, y !! "proxied" = Some (SBool a) → cf !! "proxied" = Some (SBool b) →
       (DiffSpec.proxied_differs y cf ↔ a ≠ b))
  ∧ (∀ b, y !! "proxied" = None → cf !! "proxied" = Some (SBool b) →
       (DiffSpec.proxied_differs y cf ↔ b = true))
  ∧ (∀ a b, y !! "priority" = Some (SInt a) → cf !! "priority" = Some (SInt b) →
       (DiffSpec.priority_differs y cf ↔ a ≠ b))
  ∧ (DiffSpec.field y "priority" = SNone → DiffSpec.field cf "priority" = SNone →
       ¬ DiffSpec.priority_differs y cf)
  ∧ (DiffSpec.field y "priority" = SNone → DiffSpec.field cf "priority" ≠ SNone →
       DiffSpec.priority_differs y cf)
  ∧ (DiffSpec.field y "priority" ≠ SNone → DiffSpec.field cf "priority" = SNone →
       DiffSpec.priority_differs y cf)
  ∧ (¬ DiffSpec.mx_or_srv y →
     ∀ y' cf', DiffSpec.same_but_priority y y' →
               DiffSpec.same_but_priority cf cf' →
               records_differ (Dict y') cf' = records_differ (Dict y) cf).
Proof.
  intros [t Ht].
  destruct (records_differ_verdict y cf t Ht) as (v & Hrun & Hv).
  split_and!.
  - by exists v.
  - rewrite Hrun. split; [intros [= ->]; by apply Hv |].
    intros H. f_equal. by apply Hv.
  - rewrite Hrun. split.
    + intros [= ->] H. apply Hv in H. discriminate.
    + intros H. f_equal. destruct v; [| done]. destruct H. by apply Hv.
  - intros s s' Hs Hs'. unfold DiffSpec.content_differs, DiffSpec.field.
    rewrite Hs, Hs'. simpl. by rewrite equal_string_iff.
  - intros a b Ha Hb Ha0 Hb0.
    unfold DiffSpec.ttl_differs, DiffSpec.ttl_of, DiffSpec.field.
    rewrite Ha, Hb. simpl. destruct a, b; try done; by rewrite equal_int.
  - intros b Ha Hb.
    unfold DiffSpec.ttl_differs, DiffSpec.ttl_of, DiffSpec.field.
    rewrite Ha, Hb. simpl. destruct b; rewrite equal_int; split;
      (try by intros []); intros; try split; congruence.
  - intros a Ha Hb.
    unfold DiffSpec.ttl_differs, DiffSpec.ttl_of, DiffSpec.field.
    rewrite Ha, Hb. simpl. destruct a; rewrite equal_int; split;
      (try by intros []); intros; try split; congruence.
  - intros a b Ha Hb.
    unfold DiffSpec.proxied_differs, DiffSpec.proxied_of, DiffSpec.field.
    rewrite Ha, Hb. simpl. by rewrite equal_bool.
  - intros b Ha Hb.
    unfold DiffSpec.proxied_differs, DiffSpec.proxied_of, DiffSpec.field.
    rewrite Ha, Hb. simpl. rewrite equal_bool. by destruct b.
  - intros a b Ha Hb. unfold DiffSpec.priority_differs, DiffSpec.field.
    rewrite Ha, Hb. simpl. by rewrite equal_int.
  - unfold DiffSpec.priority_differs. intros -> -> H. apply H. constructor.
  - unfold DiffSpec.priority_differs. intros -> Hc H.
    by apply equal_none_l in H.
  - unfold DiffSpec.priority_differs. intros Hy -> H.
    by apply equal_none_r in H.
  - intros Hty y' cf' Hy Hcf. by apply priority_irrelevant.
Qed.

Lemma records_differ_spec_witness :
  is_Some (Sample.api_def !! "type")
  ∧ (records_differ (Dict Sample.api_def) Sample.api_live = ok true
     ↔ DiffSpec.differs Sample.api_def Sample.api_live).
Proof.
  assert (H : is_Some (Sample.api_def !! "type")) by (by eexists).
  split; [exact H |].
  exact (proj1 (proj2 (records_differ_spec Sample.api_def Sample.api_live H))).
Defined.

(** The scenarios of the specification: same content is a no-op, another
    content is an update. *)
Example records_differ_same :
  records_differ (Dict Sample.api_def) Sample.api_live = ok false.
Proof. reflexivity. Qed.

Example records_differ_content :
  records_differ (Dict Sample.api_def)
    (<["content" := SStr "1.2.3.5"]> Sample.api_live) = ok true.
Proof. reflexivity. Qed.

(** One field at a time: another ttl, another proxied, another priority of
    an MX record, and an absent ttl against 3600. *)
Example records_differ_ttl :
  records_differ (Dict (<["ttl" := SInt 300]> Sample.api_def)) Sample.api_live
  = ok true.
Proof. reflexivity. Qed.

Example records_differ_proxied :
  records_differ (Dict (<["proxied" := SBool true]> Sample.api_def))
    Sample.api_live = ok true.
Proof. reflexivity. Qed.

Example records_differ_priority :
  records_differ (Dict (<["priority" := SInt 20]> Sample.mail_def))
    Sample.mail_live = ok true
  ∧ records_differ (Dict (<["priority" := SInt 10]> Sample.mail_def))
      Sample.mail_live = ok false
  ∧ records_differ (Dict (<["priority" := SInt 20]> Sample.api_def))
      Sample.api_live = ok false.
Proof. by split_and!. Qed.

Example records_differ_bool_is_int :
  records_differ (Dict (<["proxied" := SInt 0]> Sample.api_def))
    Sample.api_live = ok false.
Proof. reflexivity. Qed.

(** ** Python string operations *)


Lemma app_cons_str a (s t : string) : String a s +:+ t = String a (s +:+ t).
Proof. reflexivity. Qed.


Lemma startswith_spec (s p : string) :
  startswith s p = true ↔ ∃ rest, s = p +:+ rest.
Proof.
  revert s. induction p as [| a p IH]; intros s; simpl.
  - split; [intros _; by exists s | done].
  - destruct s as [| b s].
    + split; [done | intros [rest H]; discriminate].
    + rewrite andb_true_iff, Ascii.eqb_eq, IH. split.
      * intros [-> [rest ->]]. by exists rest.
      * intros [rest H]. rewrite app_cons_str in H.
        injection H as -> ->. eauto.
Qed.


Lemma str_contains_spec (hay needle : string) :
  str_contains hay needle = true ↔ ∃ pre post, hay = pre +:+ needle +:+ post.
Proof.
  induction hay as [| a hay IH]; cbn [str_contains].
  - rewrite orb_false_r, startswith_spec. split.
    + intros [rest H]. by exists "", rest.
    + intros [[| b pre] [post H]]; [eauto | discriminate].
  - rewrite orb_true_iff, startswith_spec, IH. split.
    + intros [[rest H] | (pre & post & ->)].
      * by exists "", rest.
      * by exists (String a pre), post.
    + intros [[| b pre] [post H]].
      * left. by exists post.
      * right. rewrite app_cons_str in H. injection H as -> ->. eauto.
Qed.



(** ** The change classifier *)












(** The suffix test is case-sensitive and other status codes are skipped. *)
Example classify_upper_case_suffix :
  classify_report "records" (Sample.report_line "A" "records/x.YAML")
  = ok no_changes.
Proof. reflexivity. Qed.

Example classify_rename_status :
  classify_report "records" (Sample.report_line "R100" "records/x.yaml")
  = ok no_changes.
Proof. reflexivity. Qed.



Example get_changed_files_garbage :
  get_changed_files (fun _ => ok "garbage") "records" = raise IndexError.
Proof. reflexivity. Qed.




(** ** The record matcher *)

Lemma find_matching_record_step (y cf : gmap string scalar) rest n t cn ct :
  MatchSpec.identity y n t → MatchSpec.identity cf cn ct →
  find_matching_record (Dict y) (cf :: rest) =
  if String.eqb cn n && String.eqb ct t then ok (Some cf)
  else find_matching_record (Dict y) rest.
Proof.
  intros [Hn Ht] [Hcn Hct]. cbn [find_matching_record].
  unfold py_getitem, dict_getitem. rewrite Hn, Ht, Hcn, Hct.
  unfold mbind, result_bind, ok. simpl.
  destruct (String.eqb cn n); [| done]. by destruct (String.eqb ct t).
Qed.

Lemma identity_eqb (cf : gmap string scalar) n t cn ct :
  MatchSpec.identity cf cn ct →
  (String.eqb cn n && String.eqb ct t = true ↔ MatchSpec.identity cf n t).
Proof.
  intros [Hcn Hct]. unfold MatchSpec.identity.
  rewrite andb_true_iff, !String.eqb_eq, Hcn, Hct.
  split; [by intros [-> ->] | intros [[= ->] [= ->]]; done].
Qed.

(** C4. For a definition with name [n] and type [t] and a snapshot of live
    records, [find_matching_record] returns the first record of the
    snapshot whose name is the string [n] and whose type is the string [t],
    every record before it having another name or type, and [None] when no
    record of the snapshot has both. *)
Theorem find_matching_record_spec (y : gmap string scalar)
    (cf_records : list (gmap string scalar)) (n t : string) :
  MatchSpec.identity y n t →
  Forall MatchSpec.has_identity cf_records →
  ∃ res, find_matching_record (Dict y) cf_records = ok res ∧
    match res with
    | Some cf =>
        ∃ before after, cf_records = (before ++ cf :: after)%list
          ∧ MatchSpec.identity cf n t
          ∧ Forall (fun r => ¬ MatchSpec.identity r n t) before
    | None => Forall (fun r => ¬ MatchSpec.identity r n t) cf_records
    end.
Proof.
  intros Hy Hall. induction Hall as [| cf rest (cn & ct & Hcf) _ IH].
  - exists None. by split.
  - rewrite (find_matching_record_step y cf rest n t cn ct Hy Hcf).
    pose proof (identity_eqb cf n t cn ct Hcf) as Heq.
    destruct (String.eqb cn n && String.eqb ct t).
    + exists (Some cf). split; [done |]. exists [], rest.
      split_and!; [done | by apply Heq | constructor].
    + assert (¬ MatchSpec.identity cf n t) as Hno
        by (intros H; by apply Heq in H).
      destruct IH as (res & Hres & Hspec). exists res. split; [done |].
      destruct res as [r |].
      * destruct Hspec as (before & after & -> & Hr & Hbefore).
        exists (cf :: before), after. split_and!; [done.. |].
        by constructor.
      * by constructor.
Qed.

Lemma find_matching_record_spec_witness :
  ∃ res,
    find_matching_record (Dict Sample.api_def)
      [Sample.mail_live; Sample.api_live] = ok res ∧
    match res with
    | Some cf =>
        ∃ before after, [Sample.mail_live; Sample.api_live] = (before ++ cf :: after)%list
          ∧ MatchSpec.identity cf "api.example.com" "A"
          ∧ Forall (fun r => ¬ MatchSpec.identity r "api.example.com" "A") before
    | None =>
        Forall (fun r => ¬ MatchSpec.identity r "api.example.com" "A")
          [Sample.mail_live; Sample.api_live]
    end.
Proof.
  apply find_matching_record_spec.
  - by split.
  - repeat constructor.
    + by exists "example.com", "MX".
    + by exists "api.example.com", "A".
Defined.

(** No case folding and no handling of a trailing dot. *)
Example find_matching_record_case :
  find_matching_record
    (Dict (<["name" := SStr "API.example.com"]> Sample.api_def))
    [Sample.api_live] = ok None.
Proof. reflexivity. Qed.

Example find_matching_record_trailing_dot :
  find_matching_record
    (Dict (<["name" := SStr "api.example.com."]> Sample.api_def))
    [Sample.api_live] = ok None.
Proof. reflexivity. Qed.

(** ** The record loader *)

Lemma validate_record_dict (m : gmap string scalar) filepath :
  validate_record (Dict m) filepath =
  match m !! "name", m !! "type", m !! "content" with
  | None, _, _ => raise (ValueError (missing_field_msg "name" filepath))
  | Some _, None, _ => raise (ValueError (missing_field_msg "type" filepath))
  | Some _, Some _, None =>
      raise (ValueError (missing_field_msg "content" filepath))
  | Some _, Some _, Some _ => ok (Dict m)
  end.
Proof.
  unfold validate_record, required. cbn [validate_fields py_contains].
  unfold mbind, result_bind, ok.
  destruct (m !! "name"), (m !! "type"), (m !! "content"); simpl;
    repeat (rewrite bool_decide_eq_true_2 by eauto; simpl);
    repeat (rewrite bool_decide_eq_false_2 by (by intros [? ?]); simpl);
    done.
Qed.


Lemma load_yaml_record_parsed (read_file : string → result string)
    (yaml_safe_load : string → result pyval) filepath text record :
  read_file filepath = ok text → yaml_safe_load text = ok record →
  load_yaml_record read_file yaml_safe_load filepath
  = validate_record record filepath.
Proof.
  intros Hr Hy. unfold load_yaml_record, mbind, result_bind.
  rewrite Hr. unfold ok at 1. by rewrite Hy.
Qed.



(** An MX definition without a priority, ttl or proxied loads as it is. *)
Example load_yaml_record_mx :
  load_yaml_record Sample.read_file Sample.yaml_safe_load "records/mail.yaml"
  = ok (Dict Sample.mail_def)
  ∧ Sample.mail_def !! "priority" = None
  ∧ Sample.mail_def !! "ttl" = None
  ∧ Sample.mail_def !! "proxied" = None.
Proof. by split_and!. Qed.

Example load_yaml_record_missing_content :
  validate_record (Dict (delete "content" Sample.api_def)) "records/api.yaml"
  = raise (ValueError "Missing required field 'content' in records/api.yaml").
Proof. reflexivity. Qed.

Lemma validate_record_string s filepath :
  validate_record (Scalar (SStr s)) filepath =
  if str_contains s "name" && str_contains s "type" && str_contains s "content"
  then ok (Scalar (SStr s))
  else if negb (str_contains s "name")
       then raise (ValueError (missing_field_msg "name" filepath))
       else if negb (str_contains s "type")
            then raise (ValueError (missing_field_msg "type" filepath))
            else raise (ValueError (missing_field_msg "content" filepath)).
Proof.
  unfold validate_record, required. cbn [validate_fields py_contains].
  unfold mbind, result_bind, ok.
  destruct (str_contains s "name"); [| done].
  destruct (str_contains s "type"); [| done].
  by destruct (str_contains s "content").
Qed.

(** C10. When the file parses to something that is no mapping, the
    validation does not report a missing field: for an empty document
    ([None]) the membership test raises [TypeError], and a plain string in
    which [name], [type] and [content] occur as substrings passes the
    validation and is returned as the record. *)
Theorem load_yaml_record_non_mapping (read_file : string → result string)
    (yaml_safe_load : string → result pyval) (filepath text : string) :
  read_file filepath = ok text →
  (yaml_safe_load text = ok (Scalar SNone) →
     load_yaml_record read_file yaml_safe_load filepath = raise TypeError)
  ∧ (∀ s, yaml_safe_load text = ok (Scalar (SStr s)) →
       MatchSpec.substring_of "name" s → MatchSpec.substring_of "type" s →
       MatchSpec.substring_of "content" s →
       load_yaml_record read_file yaml_safe_load filepath
       = ok (Scalar (SStr s))).
Proof.
  intros Hr. split.
  - intros Hy. by rewrite (load_yaml_record_parsed _ _ _ _ _ Hr Hy).
  - intros s Hy Hn Ht Hc.
    rewrite (load_yaml_record_parsed _ _ _ _ _ Hr Hy), validate_record_string.
    apply str_contains_spec in Hn, Ht, Hc. by rewrite Hn, Ht, Hc.
Qed.

Lemma load_yaml_record_non_mapping_witness :
  load_yaml_record Sample.read_file Sample.yaml_safe_load "records/empty.yaml"
  = raise TypeError
  ∧ load_yaml_record Sample.read_file Sample.yaml_safe_load "records/note.yaml"
    = ok (Scalar (SStr "name type content")).
Proof.
  split.
  - exact (proj1 (load_yaml_record_non_mapping Sample.read_file
      Sample.yaml_safe_load "records/empty.yaml" "" eq_refl) eq_refl).
  - apply (proj2 (load_yaml_record_non_mapping Sample.read_file
      Sample.yaml_safe_load "records/note.yaml" "name type content" eq_refl)
      "name type content" eq_refl).
    + by exists "", " type content".
    + by exists "name ", " content".
    + by exists "name type ", "".
Defined.

(** ** The data sent to the provider *)

Lemma record_data_dict (y : gmap string scalar) :
  record_data (Dict y) =
  match y !! "type", y !! "name", y !! "content" with
  | None, _, _ => raise (KeyError "type")
  | Some _, None, _ => raise (KeyError "name")
  | Some _, Some _, None => raise (KeyError "content")
  | Some ty, Some name, Some content =>
      let data : gmap string scalar :=
        <["proxied" := default (SBool false) (y !! "proxied")]>
          (<["ttl" := default (SInt 3600) (y !! "ttl")]>
            (<["content" := content]>
              (<["name" := name]> (<["type" := ty]> ∅)))) in
      ok (match y !! "priority" with
          | Some p => <["priority" := p]> data
          | None => data
          end)
  end.
Proof.
  unfold record_data, py_getitem, dict_getitem, py_get_default, py_contains,
    dict_get_default, mbind, result_bind, ok.
  destruct (y !! "type"); [| done].
  destruct (y !! "name"); [| done].
  destruct (y !! "content"); [| done].
  destruct (y !! "priority") eqn:Hp.
  - by rewrite bool_decide_eq_true_2 by eauto.
  - by rewrite bool_decide_eq_false_2 by (by intros [? ?]).
Qed.

Lemma record_data_priority (y data : gmap string scalar) :
  record_data (Dict y) = ok data → data !! "priority" = y !! "priority".
Proof.
  rewrite record_data_dict.
  destruct (y !! "type"); [| done].
  destruct (y !! "name"); [| done].
  destruct (y !! "content"); [| done].
  destruct (y !! "priority"); intros [= <-].
  - by rewrite lookup_insert_eq.
  - by rewrite !lookup_insert_ne, lookup_empty.
Qed.

Lemma create_record_run {P} (http_write : request → P → result (gmap string scalar) * P)
    (y data : gmap string scalar) (s : state P) :
  record_data (Dict y) = ok data →
  create_record http_write (Dict y) s =
  (fst (http_write (PostRecord data) (provider s)),
   State (snd (http_write (PostRecord data) (provider s)))
         (trace s ++ [ECall (PostRecord data)])).
Proof.
  intros Hd. unfold create_record, mbind, M_bind, lift, send. rewrite Hd.
  unfold ok. by destruct (http_write _ _).
Qed.

Lemma update_record_run {P} (http_write : request → P → result (gmap string scalar) * P)
    (record_id : scalar) (y data : gmap string scalar) (s : state P) :
  record_data (Dict y) = ok data →
  update_record http_write record_id (Dict y) s =
  (fst (http_write (PatchRecord record_id data) (provider s)),
   State (snd (http_write (PatchRecord record_id data) (provider s)))
         (trace s ++ [ECall (PatchRecord record_id data)])).
Proof.
  intros Hd. unfold update_record, mbind, M_bind, lift, send. rewrite Hd.
  unfold ok. by destruct (http_write _ _).
Qed.

(** C7, as the specification states it, fails: a definition of type A that
    has a [priority] key gets that priority into the data of its create
    call (and, the data being built the same way, of its update call). *)
Lemma priority_sent_for_other_types :
  ¬ DiffSpec.mx_or_srv Sample.api_def_with_priority
  ∧ ∃ data,
      record_data (Dict Sample.api_def_with_priority) = ok data
      ∧ data !! "priority" = Some (SInt 10)
      ∧ trace (snd (create_record Sample.http_write
                      (Dict Sample.api_def_with_priority) (State 0%nat [])))
        = [ECall (PostRecord data)]
      ∧ trace (snd (update_record Sample.http_write (SStr "rec-1")
                      (Dict Sample.api_def_with_priority) (State 0%nat [])))
        = [ECall (PatchRecord (SStr "rec-1") data)].
Proof.
  split.
  - intros [Hmx | Hsrv]; [vm_compute in Hmx | vm_compute in Hsrv];
      discriminate.
  - eexists. split; [reflexivity |]. by split_and!.
Qed.

(** C7, amended.  For a definition whose type is neither MX nor SRV the
    priorities of the two records do not change the verdict of
    [records_differ].  The data that [create_record] and [update_record]
    send holds under [priority] exactly what the definition holds there,
    whatever its type: the definition's priority when it has the key, and no
    such key when it has none. *)
Theorem priority_of_other_types {P}
    (http_write : request → P → result (gmap string scalar) * P)
    (y data : gmap string scalar) :
  record_data (Dict y) = ok data →
  data !! "priority" = y !! "priority"
  ∧ (∀ s, trace (snd (create_record http_write (Dict y) s))
          = (trace s ++ [ECall (PostRecord data)])%list)
  ∧ (∀ record_id s,
       trace (snd (update_record http_write record_id (Dict y) s))
       = (trace s ++ [ECall (PatchRecord record_id data)])%list)
  ∧ (¬ DiffSpec.mx_or_srv y →
     ∀ cf y' cf', DiffSpec.same_but_priority y y' →
                  DiffSpec.same_but_priority cf cf' →
                  records_differ (Dict y') cf' = records_differ (Dict y) cf).
Proof.
  intros Hd. split_and!.
  - by apply record_data_priority.
  - intros s. by rewrite (create_record_run _ _ _ _ Hd).
  - intros rid s. by rewrite (update_record_run _ _ _ _ _ Hd).
  - intros Hty cf y' cf' Hy Hcf. by apply priority_irrelevant.
Qed.

Lemma priority_of_other_types_witness :
  ∃ data, record_data (Dict Sample.api_def) = ok data
          ∧ data !! "priority" = Sample.api_def !! "priority".
Proof.
  eexists. split; [reflexivity |].
  exact (proj1 (priority_of_other_types (P := unit) (fun _ p => (ok ∅, p))
                  Sample.api_def _ eq_refl)).
Defined.

Example record_data_with_priority :
  ∃ data, record_data (Dict Sample.api_def_with_priority) = ok data
          ∧ data !! "priority" = Some (SInt 10)
          ∧ data !! "type" = Some (SStr "A").
Proof. eexists. split; [reflexivity |]. by split. Qed.

(** ** The sync run *)

Section SyncProperties.

Context {P : Type}.
Variable http_list : P → result (list (gmap string scalar)) * P.
Variable http_write : request → P → result (gmap string scalar) * P.
Variable git_diff : string → result string.
Variable git_show : string → result string.
Variable read_file : string → result string.
Variable yaml_safe_load : string → result pyval.
Variable records_dir : string.

Abbreviation body := (file_body http_write git_show read_file yaml_safe_load).
Abbreviation process := (process_file http_write git_show read_file yaml_safe_load).
Abbreviation run_sync :=
  (sync http_list http_write git_diff git_show read_file yaml_safe_load
        records_dir).

Lemma bind_run {A B} (m : M P A) (k : A → M P B) (s : state P) :
  (m ≫= k) s = match m s with
               | (inl e, s') => (inl e, s')
               | (inr a, s') => k a s'
               end.
Proof. reflexivity. Qed.

Lemma print_run (l : line) (s : state P) :
  print l s = (inr (), State (provider s) (trace s ++ [EPrint l])).
Proof. reflexivity. Qed.

Lemma notices_lift {A} (r : result A) : Report.notices_only (lift r : M P A).
Proof. intros s. exists []. by rewrite app_nil_r. Qed.

Lemma notices_print (l : line) :
  Report.is_notice (EPrint l) = true → Report.notices_only (print l : M P unit).
Proof. intros Hl s. exists [EPrint l]. split; [done |]. by constructor. Qed.

Lemma notices_send (r : request) :
  Report.is_notice (ECall r) = true → Report.notices_only (send http_write r).
Proof.
  intros Hr s. exists [ECall r]. unfold send.
  destruct (http_write r (provider s)). split; [done |]. by constructor.
Qed.

Lemma notices_bind {A B} (m : M P A) (k : A → M P B) :
  Report.notices_only m → (∀ a, Report.notices_only (k a)) →
  Report.notices_only (m ≫= k).
Proof.
  intros Hm Hk s. rewrite bind_run. destruct (Hm s) as (mid & Hmid & Hn).
  destruct (m s) as [[e | a] s1]; simpl in *.
  - by exists mid.
  - destruct (Hk a s1) as (mid' & Hmid' & Hn'). exists (mid ++ mid').
    split; [by rewrite Hmid', Hmid, app_assoc | by apply Forall_app].
Qed.

Lemma notices_create (record : pyval) :
  Report.notices_only (create_record http_write record).
Proof.
  apply notices_bind; [apply notices_lift |].
  intros data. by apply notices_send.
Qed.

Lemma notices_update (record_id : scalar) (record : pyval) :
  Report.notices_only (update_record http_write record_id record).
Proof.
  apply notices_bind; [apply notices_lift |].
  intros data. by apply notices_send.
Qed.

Lemma notices_delete (record_id : scalar) :
  Report.notices_only (delete_record http_write record_id).
Proof.
  apply notices_bind; [by apply notices_send |].
  intros _ s. exists []. by rewrite app_nil_r.
Qed.

Lemma success_print (o : line) :
  Report.is_success o = true → Report.ends_in_success (print o : M P unit).
Proof.
  intros Ho s. exists []. split; [constructor |].
  rewrite print_run. by exists o.
Qed.

Lemma success_bind {A} (m : M P A) (k : A → M P unit) :
  Report.notices_only m → (∀ a, Report.ends_in_success (k a)) →
  Report.ends_in_success (m ≫= k).
Proof.
  intros Hm Hk s. rewrite bind_run. destruct (Hm s) as (mid & Hmid & Hn).
  destruct (m s) as [[e | a] s1]; simpl in *.
  - by exists mid.
  - destruct (Hk a s1) as (mid' & Hn' & Hrun). exists (mid ++ mid').
    split; [by apply Forall_app |].
    destruct (k a s1) as [[e | []] s2].
    + by rewrite Hrun, Hmid, app_assoc.
    + destruct Hrun as (o & Ho & Htr). exists o. split; [done |].
      by rewrite Htr, Hmid, !app_assoc.
Qed.

Ltac notices :=
  repeat first
    [ apply notices_lift | apply notices_create | apply notices_update
    | apply notices_delete | apply notices_print; reflexivity
    | apply notices_bind; [| intros ?] ].

Ltac success :=
  repeat first
    [ apply success_print; reflexivity
    | apply success_bind; [notices | intros ?]
    | match goal with
      | |- Report.ends_in_success (if ?b then _ else _) => destruct b
      end ].

(** Each of the three guarded bodies emits notices and then, unless it
    raises, exactly one success line. *)
Lemma body_ends_in_success ph cf_records filepath :
  Report.ends_in_success (body ph cf_records filepath).
Proof.
  destruct ph; unfold file_body, deletion_body, addition_body,
    modification_body; success.
Qed.

(** An exception of the body is caught: the turn ends normally with the
    error line and the blank line after what the body had emitted. *)
Lemma process_file_catch ph cf_records filepath (s s1 : state P) (e : exn) :
  body ph cf_records filepath
    (State (provider s) (trace s ++ [EPrint (LProcessing ph filepath)]))
  = (inl e, s1) →
  process ph cf_records filepath s
  = (inr (), State (provider s1)
                   (trace s1 ++ [EPrint (LError e); EPrint LBlank])).
Proof.
  intros Hb. unfold process_file. rewrite bind_run, print_run.
  rewrite bind_run. unfold try_except. rewrite Hb.
  rewrite !print_run. simpl. by rewrite <- app_assoc.
Qed.

Lemma process_file_pass ph cf_records filepath (s s1 : state P) :
  body ph cf_records filepath
    (State (provider s) (trace s ++ [EPrint (LProcessing ph filepath)]))
  = (inr (), s1) →
  process ph cf_records filepath s
  = (inr (), State (provider s1) (trace s1 ++ [EPrint LBlank])).
Proof.
  intros Hb. unfold process_file. rewrite bind_run, print_run.
  rewrite bind_run. unfold try_except. rewrite Hb.
  by rewrite !print_run.
Qed.

(** One turn of a loop never raises and appends one block. *)
Lemma process_file_block ph cf_records filepath (s : state P) :
  ∃ b s', process ph cf_records filepath s = (inr (), s')
          ∧ trace s' = trace s ++ b
          ∧ Report.block_shape ph filepath b.
Proof.
  set (s0 := State (provider s) (trace s ++ [EPrint (LProcessing ph filepath)])).
  destruct (body_ends_in_success ph cf_records filepath s0)
    as (mid & Hmid & Hrun).
  destruct (body ph cf_records filepath s0) as [[e | []] s1] eqn:Hb.
  - exists (EPrint (LProcessing ph filepath) :: mid
            ++ [EPrint (LError e); EPrint LBlank]).
    eexists. split; [by apply process_file_catch |]. split.
    + simpl. rewrite Hrun. simpl. by rewrite <- !app_assoc.
    + by exists mid, (LError e).
  - destruct Hrun as (o & Ho & Htr).
    exists (EPrint (LProcessing ph filepath) :: mid
            ++ [EPrint o; EPrint LBlank]).
    eexists. split; [by apply process_file_pass |]. split.
    + simpl. rewrite Htr. simpl. by rewrite <- !app_assoc.
    + exists mid, o. split_and!; [done.. |]. by destruct o.
Qed.

(** A loop over files never raises and appends one block per file, in the
    order of the files. *)
Lemma for_each_blocks ph cf_records (files : list string) : ∀ s : state P,
  ∃ blocks s',
    for_each files (process ph cf_records) s = (inr (), s')
    ∧ trace s' = trace s ++ List.concat blocks
    ∧ Forall2 (fun f b => block_of http_write git_show read_file
                            yaml_safe_load ph cf_records f b
                          ∧ Report.block_shape ph f b) files blocks.
Proof.
  induction files as [| f rest IH]; intros s.
  - exists [], s. split_and!; [done | by rewrite app_nil_r | constructor].
  - destruct (process_file_block ph cf_records f s) as (b & s1 & Hrun & Htr & Hb).
    destruct (IH s1) as (blocks & s' & Hrest & Htr' & Hall).
    exists (b :: blocks), s'. split_and!.
    + cbn [for_each]. by rewrite bind_run, Hrun.
    + simpl. by rewrite Htr', Htr, app_assoc.
    + constructor; [| done]. split; [| done]. by exists s, s1.
Qed.

(** The whole run, once the change set and the snapshot are there. *)
Lemma sync_blocks (s : state P) cs cf_records p' :
  get_changed_files git_diff records_dir = ok cs →
  nothing_changed cs = false →
  http_list (provider s) = (ok cf_records, p') →
  ∃ bd ba bm s',
    run_sync s = (inr (), s')
    ∧ trace s' = trace s ++ Report.preamble cs cf_records
                 ++ List.concat bd ++ List.concat ba ++ List.concat bm
                 ++ [EPrint LSyncComplete]
    ∧ Forall2 (fun f b => block_of http_write git_show read_file
                            yaml_safe_load Deletion cf_records f b
                          ∧ Report.block_shape Deletion f b)
              (elements (deleted cs)) bd
    ∧ Forall2 (fun f b => block_of http_write git_show read_file
                            yaml_safe_load Addition cf_records f b
                          ∧ Report.block_shape Addition f b)
              (elements (added cs)) ba
    ∧ Forall2 (fun f b => block_of http_write git_show read_file
                            yaml_safe_load Modification cf_records f b
                          ∧ Report.block_shape Modification f b)
              (elements (modified cs)) bm.
Proof.
  intros Hcs Hne Hlist. unfold sync.
  rewrite bind_run, print_run, bind_run. unfold lift at 1. rewrite Hcs.
  unfold ok at 1. rewrite Hne.
  repeat (rewrite bind_run, print_run).
  rewrite bind_run. unfold list_records at 1. cbn [provider trace].
  rewrite Hlist. unfold ok at 1.
  repeat (rewrite bind_run, print_run). cbn [provider trace].
  set (s1 := State p' _).
  destruct (for_each_blocks Deletion cf_records (elements (deleted cs)) s1)
    as (bd & s2 & Hd & Htd & Hbd).
  destruct (for_each_blocks Addition cf_records (elements (added cs)) s2)
    as (ba & s3 & Ha & Hta & Hba).
  destruct (for_each_blocks Modification cf_records (elements (modified cs)) s3)
    as (bm & s4 & Hm & Htm & Hbm).
  exists bd, ba, bm. eexists.
  rewrite bind_run, Hd, bind_run, Ha, bind_run, Hm, print_run.
  split_and!; [done | | done..].
  cbn [trace]. rewrite Htm, Hta, Htd. subst s1. cbn [trace].
  unfold Report.preamble. by rewrite <- !app_assoc.
Qed.

Lemma header_in_block ph f b ph' f' :
  Report.block_shape ph f b → EPrint (LProcessing ph' f') ∈ b →
  ph' = ph ∧ f' = f.
Proof.
  intros (mid & o & -> & Hmid & Ho) Hin.
  apply elem_of_cons in Hin as [[= -> ->] | Hin]; [done |].
  apply elem_of_app in Hin as [Hin | Hin].
  - rewrite Forall_forall in Hmid. by apply Hmid in Hin.
  - apply elem_of_cons in Hin as [[= <-] | Hin]; [done |].
    by apply list_elem_of_singleton in Hin.
Qed.

Lemma header_in_blocks {Q : string → list event → Prop} ph files blocks ph' f' :
  Forall2 (fun f b => Q f b ∧ Report.block_shape ph f b) files blocks →
  EPrint (LProcessing ph' f') ∈ List.concat blocks →
  ph' = ph ∧ f' ∈ files.
Proof.
  induction 1 as [| f b files blocks [_ Hb] _ IH]; simpl; intros Hin.
  - by apply elem_of_nil in Hin.
  - apply elem_of_app in Hin as [Hin | Hin].
    + destruct (header_in_block _ _ _ _ _ Hb Hin) as [-> ->].
      split; [done |]. apply elem_of_cons. by left.
    + destruct (IH Hin) as [-> ?]. split; [done |]. apply elem_of_cons. by right.
Qed.

(** The turn of a deleted file whose last definition matches no live
    record: the warning, and no provider call. *)
Lemma process_deletion_unmatched cf_records filepath text
    (y : gmap string scalar) (n t : scalar) (s : state P) :
  git_show filepath = ok text → yaml_safe_load text = ok (Dict y) →
  y !! "name" = Some n → y !! "type" = Some t →
  find_matching_record (Dict y) cf_records = ok None →
  process Deletion cf_records filepath s
  = (inr (), State (provider s)
       (trace s ++ [EPrint (LProcessing Deletion filepath);
                    EPrint (LNotInCloudflare n t); EPrint LBlank])).
Proof.
  intros Hshow Hload Hn Ht Hfind.
  assert (body Deletion cf_records filepath
            (State (provider s)
                   (trace s ++ [EPrint (LProcessing Deletion filepath)]))
          = (inr (), State (provider s)
               (trace s ++ [EPrint (LProcessing Deletion filepath);
                            EPrint (LNotInCloudflare n t)]))) as Hb.
  { unfold file_body, deletion_body.
    rewrite bind_run. unfold lift at 1. rewrite Hshow. unfold ok at 1.
    rewrite bind_run. unfold lift at 1. rewrite Hload. unfold ok at 1.
    rewrite bind_run. unfold lift at 1. rewrite Hfind. unfold ok at 1.
    cbn [found]. rewrite bind_run. unfold lift at 1, py_getitem, dict_getitem.
    rewrite Hn. unfold ok at 1.
    rewrite bind_run. unfold lift at 1. rewrite Ht. unfold ok at 1.
    rewrite print_run. cbn [provider trace]. by rewrite <- app_assoc. }
  rewrite (process_file_pass _ _ _ _ _ Hb). cbn [provider trace].
  by rewrite <- app_assoc.
Qed.

(** C2. Once the change set is known and the snapshot is fetched, [sync]
    returns normally whatever happens to the single files.  Its trace is
    the preamble, then one block per deleted file, one per added file and
    one per modified file, in that order, then the completion line; every
    block is what the guarded turn of its file emits: the file's
    announcement, provider calls and advisory lines, one outcome line and a
    blank line.  And when the body of a file's turn raises an exception,
    whichever it is, the turn itself ends normally, with that exception as
    the file's outcome line. *)
Theorem sync_fault_isolation (s : state P) cs cf_records p' :
  get_changed_files git_diff records_dir = ok cs →
  nothing_changed cs = false →
  http_list (provider s) = (ok cf_records, p') →
  (∃ bd ba bm s',
    run_sync s = (inr (), s')
    ∧ trace s' = trace s ++ Report.preamble cs cf_records
                 ++ List.concat bd ++ List.concat ba ++ List.concat bm
                 ++ [EPrint LSyncComplete]
    ∧ Forall2 (fun f b => block_of http_write git_show read_file
                            yaml_safe_load Deletion cf_records f b
                          ∧ Report.block_shape Deletion f b)
              (elements (deleted cs)) bd
    ∧ Forall2 (fun f b => block_of http_write git_show read_file
                            yaml_safe_load Addition cf_records f b
                          ∧ Report.block_shape Addition f b)
              (elements (added cs)) ba
    ∧ Forall2 (fun f b => block_of http_write git_show read_file
                            yaml_safe_load Modification cf_records f b
                          ∧ Report.block_shape Modification f b)
              (elements (modified cs)) bm)
  ∧ (∀ ph filepath (s0 s1 : state P) e,
       body ph cf_records filepath
         (State (provider s0) (trace s0 ++ [EPrint (LProcessing ph filepath)]))
       = (inl e, s1) →
       process ph cf_records filepath s0
       = (inr (), State (provider s1)
                        (trace s1 ++ [EPrint (LError e); EPrint LBlank]))).
Proof.
  intros Hcs Hne Hlist. split.
  - by apply (sync_blocks s cs cf_records p').
  - intros ph filepath s0 s1 e. apply process_file_catch.
Qed.

(** C6. For a deleted file whose definition, recovered from the previous
    commit, is a mapping with a name and a type that matches no record of
    the snapshot, the run returns normally and ends with the completion
    line; the file's block is its announcement, the warning line and a
    blank line, with no provider call in it; and the file is announced
    nowhere else in the run. *)
Theorem deletion_without_match (s : state P) cs cf_records p' filepath text
    (y : gmap string scalar) (n t : scalar) :
  get_changed_files git_diff records_dir = ok cs →
  http_list (provider s) = (ok cf_records, p') →
  filepath ∈ deleted cs →
  git_show filepath = ok text → yaml_safe_load text = ok (Dict y) →
  y !! "name" = Some n → y !! "type" = Some t →
  find_matching_record (Dict y) cf_records = ok None →
  ∃ before after s',
    run_sync s = (inr (), s')
    ∧ trace s' = trace s ++ before
                 ++ [EPrint (LProcessing Deletion filepath);
                     EPrint (LNotInCloudflare n t); EPrint LBlank]
                 ++ after ++ [EPrint LSyncComplete]
    ∧ EPrint (LProcessing Deletion filepath) ∉ before ++ after.
Proof.
  intros Hcs Hlist Hin Hshow Hload Hn Ht Hfind.
  assert (nothing_changed cs = false) as Hne.
  { unfold nothing_changed.
    destruct (bool_decide (deleted cs = ∅)) eqn:Hd; [| by rewrite andb_false_r].
    apply bool_decide_eq_true in Hd. rewrite Hd in Hin.
    by apply not_elem_of_empty in Hin. }
  destruct (sync_blocks s cs cf_records p' Hcs Hne Hlist)
    as (bd & ba & bm & s' & Hrun & Htr & Hbd & Hba & Hbm).
  apply elem_of_elements in Hin.
  pose proof (NoDup_elements (deleted cs)) as Hnd.
  apply list_elem_of_split in Hin as (l1 & l2 & Hsplit).
  rewrite Hsplit in Hbd, Hnd.
  apply Forall2_app_inv_l in Hbd as (b1 & brest & Hb1 & Hbrest & ->).
  apply Forall2_cons_inv_l in Hbrest as (b & b2 & [Hblock _] & Hb2 & ->).
  apply NoDup_app in Hnd as (_ & Hl1 & Hnd).
  apply NoDup_cons in Hnd as [Hl2 _].
  destruct Hblock as (sa & sb & Hproc & Hb).
  rewrite (process_deletion_unmatched _ _ _ _ _ _ sa Hshow Hload Hn Ht Hfind)
    in Hproc.
  injection Hproc as <-. cbn [trace] in Hb. apply app_inv_head in Hb as <-.
  exists (Report.preamble cs cf_records ++ List.concat b1),
         (List.concat b2 ++ List.concat ba ++ List.concat bm), s'.
  split_and!; [done | |].
  - rewrite Htr, concat_app. simpl. by rewrite <- !app_assoc.
  - rewrite !elem_of_app. intros [[Hp | H1] | [H2 | [Ha | Hm]]].
    + unfold Report.preamble in Hp.
      repeat (apply elem_of_cons in Hp as [Hp | Hp]; [discriminate |]).
      by apply elem_of_nil in Hp.
    + apply (header_in_blocks _ _ _ _ _ Hb1) in H1 as [_ H1].
      apply (Hl1 filepath H1). apply elem_of_cons. by left.
    + by apply (header_in_blocks _ _ _ _ _ Hb2) in H2 as [_ H2].
    + by apply (header_in_blocks _ _ _ _ _ Hba) in Ha as [? _].
    + by apply (header_in_blocks _ _ _ _ _ Hbm) in Hm as [? _].
Qed.

End SyncProperties.

Lemma sync_fault_isolation_witness :
  ∃ s', Sample.run = (inr (), s')
        ∧ last (trace s') = Some (EPrint LSyncComplete).
Proof.
  destruct (sync_fault_isolation Sample.http_list Sample.http_write
              Sample.git_diff Sample.git_show Sample.read_file
              Sample.yaml_safe_load "records" (State 0%nat [])
              Sample.run_changes Sample.snapshot 0%nat
              eq_refl eq_refl eq_refl)
    as [(bd & ba & bm & s' & Hrun & Htr & _) _].
  exists s'. split; [exact Hrun |].
  rewrite Htr, !app_assoc. apply last_snoc.
Defined.

Lemma deletion_without_match_witness :
  ∃ before after s',
    Sample.run = (inr (), s')
    ∧ trace s' = before
                 ++ [EPrint (LProcessing Deletion "records/old.yaml");
                     EPrint (LNotInCloudflare (SStr "old.example.com") (SStr "A"));
                     EPrint LBlank]
                 ++ after ++ [EPrint LSyncComplete]
    ∧ EPrint (LProcessing Deletion "records/old.yaml") ∉ before ++ after.
Proof.
  apply (deletion_without_match Sample.http_list Sample.http_write
           Sample.git_diff Sample.git_show Sample.read_file
           Sample.yaml_safe_load "records" (State 0%nat [])
           Sample.run_changes Sample.snapshot 0%nat "records/old.yaml" "old"
           Sample.old_def (SStr "old.example.com") (SStr "A")
           eq_refl eq_refl);
    [cbn [Sample.run_changes deleted]; by apply elem_of_singleton_2 | reflexivity..].
Defined.

(** The scenario of the specification: of three modified files one lacks
    [content] and one is no mapping; both are reported as errors, the third
    is updated, and the run completes. *)
Example sync_scenario :
  fst Sample.run = inr ()
  ∧ EPrint (LError (ValueError
      "Missing required field 'content' in records/broken.yaml"))
    ∈ trace (snd Sample.run)
  ∧ EPrint (LError TypeError) ∈ trace (snd Sample.run)
  ∧ EPrint (LUpdated (SStr "example.com") (SStr "MX")) ∈ trace (snd Sample.run)
  ∧ EPrint (LNotInCloudflare (SStr "old.example.com") (SStr "A"))
    ∈ trace (snd Sample.run)
  ∧ EPrint LNoChangesNeeded ∈ trace (snd Sample.run)
  ∧ provider (snd Sample.run) = 1%nat.
Proof.
  split_and!; [reflexivity | | | | | | reflexivity];
    refine (bool_decide_unpack _ _); vm_compute; exact I.
Qed.

(** * Further properties *)

(** ** What [create_record] and [update_record] put into [data] *)

Lemma record_data_ok_iff (y : gmap string scalar) :
  is_Some (y !! "type") ∧ is_Some (y !! "name") ∧ is_Some (y !! "content")
  ↔ ∃ data, record_data (Dict y) = ok data.
Proof.
  rewrite record_data_dict.
  destruct (y !! "type") as [ty |];
    [destruct (y !! "name") as [nm |];
       [destruct (y !! "content") as [ct |] |] |].
  - split; [eauto | intros _; eauto].
  - split; [by intros (_ & _ & [? ?]) | by intros [? ?]].
  - split; [by intros (_ & [? ?] & _) | by intros [? ?]].
  - split; [by intros ([? ?] & _) | by intros [? ?]].
Qed.

Lemma record_data_lookups (y data : gmap string scalar) :
  record_data (Dict y) = ok data →
  data !! "type" = y !! "type"
  ∧ data !! "name" = y !! "name"
  ∧ data !! "content" = y !! "content"
  ∧ data !! "ttl" = Some (default (SInt 3600) (y !! "ttl"))
  ∧ data !! "proxied" = Some (default (SBool false) (y !! "proxied"))
  ∧ ∀ k, k ∉ Calls.sent_fields → data !! k = None.
Proof.
  rewrite record_data_dict.
  destruct (y !! "type") as [ty |] eqn:Hty; [| done].
  destruct (y !! "name") as [nm |] eqn:Hnm; [| done].
  destruct (y !! "content") as [ct |] eqn:Hct; [| done].
  intros [= <-].
  assert (∀ k, k ∉ Calls.sent_fields →
            k ≠ "type" ∧ k ≠ "name" ∧ k ≠ "content" ∧ k ≠ "ttl"
            ∧ k ≠ "proxied" ∧ k ≠ "priority") as Hother.
  { intros k Hk. unfold Calls.sent_fields in Hk.
    split_and!; intros ->; apply Hk; repeat constructor. }
  destruct (y !! "priority");
    (split_and!; [by simplify_map_eq.. |]);
    intros k Hk; destruct (Hother k Hk) as (? & ? & ? & ? & ? & ?);
    by simplify_map_eq.
Qed.

(** [create_record] and [update_record] can build their data exactly when
    the record has [type], [name] and [content].  The data then repeats
    these three, holds the record's [ttl] or 3600 when the key is missing
    and its [proxied] or [False] when the key is missing, and holds no key
    besides the six the script knows: any other key of the definition is
    not sent. *)
Theorem record_data_fields (y : gmap string scalar) :
  (is_Some (y !! "type") ∧ is_Some (y !! "name") ∧ is_Some (y !! "content")
   ↔ ∃ data, record_data (Dict y) = ok data)
  ∧ ∀ data, record_data (Dict y) = ok data →
      data !! "type" = y !! "type"
      ∧ data !! "name" = y !! "name"
      ∧ data !! "content" = y !! "content"
      ∧ data !! "ttl" = Some (default (SInt 3600) (y !! "ttl"))
      ∧ data !! "proxied" = Some (default (SBool false) (y !! "proxied"))
      ∧ ∀ k, k ∉ Calls.sent_fields → data !! k = None.
Proof.
  split; [apply record_data_ok_iff | apply record_data_lookups].
Qed.

(** ** Defaults of the diff evaluator *)

Lemma records_differ_ext (y y' cf cf' : gmap string scalar) :
  DiffSpec.field y' "content" = DiffSpec.field y "content" →
  DiffCode.ttl_of y' = DiffCode.ttl_of y →
  DiffSpec.proxied_of y' = DiffSpec.proxied_of y →
  y' !! "type" = y !! "type" →
  DiffSpec.field y' "priority" = DiffSpec.field y "priority" →
  DiffSpec.field cf' "content" = DiffSpec.field cf "content" →
  DiffCode.ttl_of cf' = DiffCode.ttl_of cf →
  DiffSpec.proxied_of cf' = DiffSpec.proxied_of cf →
  DiffSpec.field cf' "priority" = DiffSpec.field cf "priority" →
  records_differ (Dict y') cf' = records_differ (Dict y) cf.
Proof.
  intros H1 H2 H3 H4 H5 H6 H7 H8 H9. rewrite !records_differ_dict.
  by rewrite H1, H2, H3, H4, H5, H6, H7, H8, H9.
Qed.

Lemma field_insert_ne (r : gmap string scalar) k k' v :
  k ≠ k' → DiffSpec.field (<[k := v]> r) k' = DiffSpec.field r k'.
Proof. intros H. unfold DiffSpec.field. by rewrite lookup_insert_ne. Qed.

Lemma field_delete_ne (r : gmap string scalar) k k' :
  k ≠ k' → DiffSpec.field (delete k r) k' = DiffSpec.field r k'.
Proof. intros H. unfold DiffSpec.field. by rewrite lookup_delete_ne. Qed.

Lemma field_insert_eq (r : gmap string scalar) k v :
  DiffSpec.field (<[k := v]> r) k = v.
Proof. unfold DiffSpec.field. by rewrite lookup_insert_eq. Qed.

Lemma field_delete_eq (r : gmap string scalar) k :
  DiffSpec.field (delete k r) k = SNone.
Proof. unfold DiffSpec.field. by rewrite lookup_delete_eq. Qed.

Ltac fields :=
  unfold DiffCode.ttl_of, DiffSpec.proxied_of;
  rewrite ?field_insert_eq, ?field_delete_eq,
    ?field_insert_ne, ?field_delete_ne, ?lookup_insert_ne, ?lookup_delete_ne
    by done.

(** The verdict of a record whose [ttl] is falsy ([None], 0, [False], the
    empty string) or missing is the verdict of the same record with
    [ttl: 3600], on the definition's side and on the live record's side;
    and a [proxied] that is [None] or missing counts as [proxied: False]. *)
Theorem records_differ_defaults (y cf : gmap string scalar) (v : scalar) :
  truthy v = false →
  records_differ (Dict (<["ttl" := v]> y)) cf
    = records_differ (Dict (<["ttl" := SInt 3600]> y)) cf
  ∧ records_differ (Dict (delete "ttl" y)) cf
    = records_differ (Dict (<["ttl" := SInt 3600]> y)) cf
  ∧ records_differ (Dict y) (<["ttl" := v]> cf)
    = records_differ (Dict y) (<["ttl" := SInt 3600]> cf)
  ∧ records_differ (Dict y) (delete "ttl" cf)
    = records_differ (Dict y) (<["ttl" := SInt 3600]> cf)
  ∧ records_differ (Dict (<["proxied" := SNone]> y)) cf
    = records_differ (Dict (<["proxied" := SBool false]> y)) cf
  ∧ records_differ (Dict (delete "proxied" y)) cf
    = records_differ (Dict (<["proxied" := SBool false]> y)) cf
  ∧ records_differ (Dict y) (<["proxied" := SNone]> cf)
    = records_differ (Dict y) (<["proxied" := SBool false]> cf)
  ∧ records_differ (Dict y) (delete "proxied" cf)
    = records_differ (Dict y) (<["proxied" := SBool false]> cf).
Proof.
  intros Hv.
  split_and!; apply records_differ_ext; fields; try done; by rewrite Hv.
Qed.

Lemma records_differ_defaults_witness :
  records_differ (Dict (<["ttl" := SInt 0]> Sample.api_def)) Sample.api_live
  = records_differ (Dict (<["ttl" := SInt 3600]> Sample.api_def)) Sample.api_live.
Proof.
  exact (proj1 (records_differ_defaults Sample.api_def Sample.api_live
                  (SInt 0) eq_refl)).
Defined.

(** ** What is sent compares equal to the definition *)



(** ** More on the record matcher *)

Lemma find_matching_record_some (v : pyval)
    (cf_records : list (gmap string scalar)) (cf : gmap string scalar) :
  find_matching_record v cf_records = ok (Some cf) →
  cf ∈ cf_records
  ∧ ∃ (y : gmap string scalar) n t cn ct,
      v = Dict y ∧ y !! "name" = Some n ∧ y !! "type" = Some t
      ∧ cf !! "name" = Some cn ∧ cf !! "type" = Some ct
      ∧ py_eq cn n = true ∧ py_eq ct t = true.
Proof.
  induction cf_records as [| c rest IH]; [done |].
  cbn [find_matching_record]. unfold dict_getitem, py_getitem.
  unfold mbind, result_bind, ok, raise.
  destruct (c !! "name") as [cn |] eqn:Hcn; [| done].
  destruct v as [sv | l | y]; [done | done |].
  unfold dict_getitem, raise, ok.
  destruct (y !! "name") as [n |] eqn:Hn; [| done].
  destruct (py_eq cn n) eqn:Hname.
  - destruct (c !! "type") as [ct |] eqn:Hct; [| done].
    destruct (y !! "type") as [t |] eqn:Ht; [| done].
    destruct (py_eq ct t) eqn:Htype.
    + intros [= <-]. split; [apply elem_of_cons; by left |].
      by exists y, n, t, cn, ct.
    + intros H. destruct (IH H) as [Hin Hrest].
      split; [apply elem_of_cons; by right | done].
  - intros H. destruct (IH H) as [Hin Hrest].
    split; [apply elem_of_cons; by right | done].
Qed.

(** What [find_matching_record] returns as a match is a record of the
    snapshot whose name and type equal the ones of the definition, which is
    a mapping that has both, and the test [if cf_record:] of [sync] holds
    for it: a match is never taken for a missing record. *)
Theorem match_is_found (v : pyval) (cf_records : list (gmap string scalar))
    (cf : gmap string scalar) :
  find_matching_record v cf_records = ok (Some cf) →
  cf ∈ cf_records
  ∧ found (Some cf) = true
  ∧ ∃ (y : gmap string scalar) n t,
      v = Dict y ∧ y !! "name" = Some n ∧ y !! "type" = Some t
      ∧ py_eq (dict_get cf "name") n = true
      ∧ py_eq (dict_get cf "type") t = true.
Proof.
  intros H.
  destruct (find_matching_record_some _ _ _ H)
    as (Hin & y & n & t & cn & ct & -> & Hn & Ht & Hcn & Hct & Hen & Het).
  split_and!; [done | |].
  - cbn [found]. rewrite bool_decide_eq_false_2; [done |].
    intros ->. by rewrite lookup_empty in Hcn.
  - exists y, n, t. unfold dict_get. by rewrite Hcn, Hct.
Qed.

Lemma match_is_found_witness :
  Sample.api_live ∈ Sample.snapshot ∧ found (Some Sample.api_live) = true.
Proof.
  destruct (match_is_found (Dict Sample.api_def) Sample.snapshot
              Sample.api_live eq_refl) as (Hin & Hfound & _).
  by split.
Defined.

(** A document that is no mapping matches nothing: the matcher returns
    [None] on the empty snapshot and raises on any other. *)
Lemma find_matching_record_non_mapping (v : pyval)
    (cf_records : list (gmap string scalar)) :
  (∀ m, v ≠ Dict m) →
  find_matching_record v cf_records = ok None
  ∨ ∃ e, find_matching_record v cf_records = raise e.
Proof.
  intros Hv. destruct cf_records as [| c rest]; [by left |]. right.
  cbn [find_matching_record]. unfold dict_getitem, py_getitem.
  unfold mbind, result_bind, ok, raise.
  destruct (c !! "name"); [| eauto].
  destruct v as [sv | l | y]; [eauto | eauto |]. by destruct (Hv y).
Qed.

(** On a definition with a name and a type and live records that all have
    a name and a type, the matcher returns. *)
Lemma find_matching_record_total (y : gmap string scalar)
    (cf_records : list (gmap string scalar)) :
  is_Some (y !! "name") → is_Some (y !! "type") →
  Forall (fun cf => is_Some (cf !! "name") ∧ is_Some (cf !! "type"))
         cf_records →
  ∃ res, find_matching_record (Dict y) cf_records = ok res.
Proof.
  intros [n Hn] [t Ht] Hall.
  induction Hall as [| c rest [[cn Hcn] [ct Hct]] _ [res IH]]; [by exists None |].
  cbn [find_matching_record]. unfold py_getitem, dict_getitem.
  rewrite Hcn, Hn, Hct, Ht. unfold mbind, result_bind, ok.
  destruct (py_eq cn n); [| eauto]. destruct (py_eq ct t); eauto.
Qed.

(** ** More on the classifier and the loader *)



Lemma existsb_py_eq_str (k : string) (l : list scalar) :
  existsb (fun x => py_eq (SStr k) x) l = true ↔ SStr k ∈ l.
Proof.
  induction l as [| x l IH]; simpl.
  - split; [done | by intros ?%elem_of_nil].
  - rewrite orb_true_iff, IH, elem_of_cons. split.
    + intros [Hx | Hl]; [left | by right].
      destruct x; try discriminate. simpl in Hx.
      by apply String.eqb_eq in Hx as ->.
    + intros [<- | Hl]; [left | by right]. apply String.eqb_refl.
Qed.

(** The validation of [load_yaml_record] tests membership, not keys: a
    YAML sequence passes exactly when the strings [name], [type] and
    [content] are among its elements, and a boolean or an integer raises
    [TypeError]. *)
Theorem validation_of_other_documents (filepath : string) :
  (∀ l, validate_record (Seq l) filepath = ok (Seq l)
        ↔ SStr "name" ∈ l ∧ SStr "type" ∈ l ∧ SStr "content" ∈ l)
  ∧ (∀ b, validate_record (Scalar (SBool b)) filepath = raise TypeError)
  ∧ (∀ z, validate_record (Scalar (SInt z)) filepath = raise TypeError).
Proof.
  split_and!; [| intros b; reflexivity | intros z; reflexivity].
  intros l. unfold validate_record, required.
  cbn [validate_fields py_contains]. unfold mbind, result_bind, ok.
  rewrite <- !existsb_py_eq_str.
  set (hn := existsb (fun x => py_eq (SStr "name") x) l).
  set (ht := existsb (fun x => py_eq (SStr "type") x) l).
  set (hc := existsb (fun x => py_eq (SStr "content") x) l).
  destruct hn, ht, hc; cbn [negb]; split; try done;
    intros (? & ? & ?); discriminate.
Qed.

(** ** The action taken for one file *)

Lemma validate_record_ok (record record' : pyval) filepath :
  validate_record record filepath = ok record' → record' = record.
Proof.
  unfold validate_record, mbind, result_bind.
  destruct (validate_fields required record filepath); [done |].
  by intros [= <-].
Qed.

Lemma load_yaml_record_ok_dict (read_file : string → result string)
    (yaml_safe_load : string → result pyval) filepath
    (y : gmap string scalar) :
  load_yaml_record read_file yaml_safe_load filepath = ok (Dict y) →
  is_Some (y !! "name") ∧ is_Some (y !! "type") ∧ is_Some (y !! "content").
Proof.
  unfold load_yaml_record, mbind, result_bind.
  destruct (read_file filepath) as [e | text]; [done |].
  destruct (yaml_safe_load text) as [e | record]; [done |].
  intros H. pose proof (validate_record_ok _ _ _ H) as <-.
  rewrite validate_record_dict in H.
  destruct (y !! "name"); [| done]. destruct (y !! "type"); [| done].
  destruct (y !! "content"); [| done]. eauto.
Qed.

Lemma load_yaml_record_sendable (read_file : string → result string)
    (yaml_safe_load : string → result pyval) filepath
    (y : gmap string scalar) :
  load_yaml_record read_file yaml_safe_load filepath = ok (Dict y) →
  ∃ data n t, record_data (Dict y) = ok data
              ∧ y !! "name" = Some n ∧ y !! "type" = Some t.
Proof.
  intros H. destruct (load_yaml_record_ok_dict _ _ _ _ H)
    as ([n Hn] & [t Ht] & [c Hc]).
  rewrite record_data_dict, Ht, Hn, Hc. by eexists _, n, t.
Qed.

Section Actions.

Context {P : Type}.
Variable http_write : request → P → result (gmap string scalar) * P.
Variable git_show : string → result string.
Variable read_file : string → result string.
Variable yaml_safe_load : string → result pyval.

Abbreviation turn := (process_file http_write git_show read_file yaml_safe_load).
Abbreviation turn_body := (file_body http_write git_show read_file yaml_safe_load).
Abbreviation load := (load_yaml_record read_file yaml_safe_load).

(** A turn whose body is known: the announcement, what the body emitted,
    its outcome and the blank line. *)
Lemma turn_of_body ph cf_records filepath (s s1 : state P) (r : result unit)
    (evs : list event) (o : line) :
  turn_body ph cf_records filepath
    (State (provider s) (trace s ++ [EPrint (LProcessing ph filepath)]))
  = (r, s1) →
  trace s1 = (trace s ++ [EPrint (LProcessing ph filepath)]) ++ evs
             ++ match r with inr _ => [EPrint o] | inl _ => [] end →
  turn ph cf_records filepath s
  = (inr (), State (provider s1)
       (trace s ++ EPrint (LProcessing ph filepath) :: evs
        ++ [EPrint (match r with inr _ => o | inl e => LError e end);
            EPrint LBlank])).
Proof.
  intros Hb Htr. destruct r as [e | []].
  - rewrite (process_file_catch _ _ _ _ _ _ _ _ _ _ Hb), Htr.
    rewrite ?app_nil_r. repeat rewrite <- app_assoc. done.
  - rewrite (process_file_pass _ _ _ _ _ _ _ _ _ Hb), Htr.
    repeat rewrite <- app_assoc. done.
Qed.

Ltac lifted H :=
  rewrite bind_run; unfold lift at 1; rewrite H; unfold ok at 1;
  cbv beta iota.

Lemma create_body_run (y data : gmap string scalar) n t (s : state P) :
  record_data (Dict y) = ok data →
  y !! "name" = Some n → y !! "type" = Some t →
  (_ ← create_record http_write (Dict y);
   name ← lift (py_getitem (Dict y) "name");
   ty ← lift (py_getitem (Dict y) "type");
   print (LCreated name ty)) s
  = let w := http_write (PostRecord data) (provider s) in
    (match fst w with inl e => inl e | inr _ => inr () end,
     State (snd w)
       (trace s ++ [ECall (PostRecord data)]
        ++ match fst w with
           | inr _ => [EPrint (LCreated n t)]
           | inl _ => []
           end)).
Proof.
  intros Hdata Hn Ht. rewrite bind_run, (create_record_run _ _ _ _ Hdata).
  destruct (http_write (PostRecord data) (provider s)) as [[e | resp] p'];
    cbn [fst snd].
  - by rewrite app_nil_r.
  - unfold py_getitem, dict_getitem. lifted Hn. lifted Ht.
    rewrite print_run. cbn [provider trace]. by rewrite <- app_assoc.
Qed.

Lemma update_body_run (y data : gmap string scalar) n t rid (s : state P) :
  record_data (Dict y) = ok data →
  y !! "name" = Some n → y !! "type" = Some t →
  (_ ← update_record http_write rid (Dict y);
   name ← lift (py_getitem (Dict y) "name");
   ty ← lift (py_getitem (Dict y) "type");
   print (LUpdated name ty)) s
  = let w := http_write (PatchRecord rid data) (provider s) in
    (match fst w with inl e => inl e | inr _ => inr () end,
     State (snd w)
       (trace s ++ [ECall (PatchRecord rid data)]
        ++ match fst w with
           | inr _ => [EPrint (LUpdated n t)]
           | inl _ => []
           end)).
Proof.
  intros Hdata Hn Ht. rewrite bind_run, (update_record_run _ _ _ _ _ Hdata).
  destruct (http_write (PatchRecord rid data) (provider s)) as [[e | resp] p'];
    cbn [fst snd].
  - by rewrite app_nil_r.
  - unfold py_getitem, dict_getitem. lifted Hn. lifted Ht.
    rewrite print_run. cbn [provider trace]. by rewrite <- app_assoc.
Qed.


Ltac finish :=
  cbn [provider trace fst snd line_after];
  rewrite ?app_nil_r; repeat rewrite <- app_assoc; done.

(** An added or modified file whose definition matches no live record is
    created: the data built from the definition is posted once, and the
    turn ends with the creation line or, when the provider refuses, with
    the provider's error.  The modification turn says first that the record
    was not found. *)
Theorem unmatched_is_created cf_records filepath (y : gmap string scalar)
    (s : state P) :
  load filepath = ok (Dict y) →
  find_matching_record (Dict y) cf_records = ok None →
  ∃ data n t,
    record_data (Dict y) = ok data
    ∧ y !! "name" = Some n ∧ y !! "type" = Some t
    ∧ turn Addition cf_records filepath s
      = (inr (),
         State (snd (http_write (PostRecord data) (provider s)))
           (trace s ++
            [EPrint (LProcessing Addition filepath);
             ECall (PostRecord data);
             EPrint (line_after (fst (http_write (PostRecord data) (provider s)))
                                (LCreated n t));
             EPrint LBlank]))
    ∧ turn Modification cf_records filepath s
      = (inr (),
         State (snd (http_write (PostRecord data) (provider s)))
           (trace s ++
            [EPrint (LProcessing Modification filepath);
             EPrint LNotFoundWillCreate;
             ECall (PostRecord data);
             EPrint (line_after (fst (http_write (PostRecord data) (provider s)))
                                (LCreated n t));
             EPrint LBlank])).
Proof.
  intros Hload Hfind.
  destruct (load_yaml_record_sendable _ _ _ _ Hload)
    as (data & n & t & Hdata & Hn & Ht).
  exists data, n, t. split_and!; [done.. | |].
  - set (s0 := State (provider s)
                 (trace s ++ [EPrint (LProcessing Addition filepath)])).
    assert (turn_body Addition cf_records filepath s0
            = (match fst (http_write (PostRecord data) (provider s)) with
               | inl e => inl e | inr _ => inr () end,
               State (snd (http_write (PostRecord data) (provider s)))
                 (trace s0 ++ [ECall (PostRecord data)]
                  ++ match fst (http_write (PostRecord data) (provider s)) with
                     | inr _ => [EPrint (LCreated n t)]
                     | inl _ => []
                     end))) as Hb.
    { unfold file_body, addition_body. lifted Hload. lifted Hfind.
      cbn [found]. by rewrite (create_body_run y data n t s0 Hdata Hn Ht). }
    destruct (http_write (PostRecord data) (provider s)) as [[e | resp] p'];
      cbn [fst snd] in Hb.
    + rewrite (process_file_catch _ _ _ _ _ _ _ _ _ _ Hb). subst s0. finish.
    + rewrite (process_file_pass _ _ _ _ _ _ _ _ _ Hb). subst s0. finish.
  - set (s0 := State (provider s)
                 (trace s ++ [EPrint (LProcessing Modification filepath)])).
    set (s1 := State (provider s) (trace s0 ++ [EPrint LNotFoundWillCreate])).
    assert (turn_body Modification cf_records filepath s0
            = (match fst (http_write (PostRecord data) (provider s)) with
               | inl e => inl e | inr _ => inr () end,
               State (snd (http_write (PostRecord data) (provider s)))
                 (trace s1 ++ [ECall (PostRecord data)]
                  ++ match fst (http_write (PostRecord data) (provider s)) with
                     | inr _ => [EPrint (LCreated n t)]
                     | inl _ => []
                     end))) as Hb.
    { unfold file_body, modification_body. lifted Hload. lifted Hfind.
      cbn [found]. rewrite bind_run, print_run.
      by rewrite (create_body_run y data n t _ Hdata Hn Ht). }
    destruct (http_write (PostRecord data) (provider s)) as [[e | resp] p'];
      cbn [fst snd] in Hb.
    + rewrite (process_file_catch _ _ _ _ _ _ _ _ _ _ Hb). subst s1 s0. finish.
    + rewrite (process_file_pass _ _ _ _ _ _ _ _ _ Hb). subst s1 s0. finish.
Qed.

Lemma found_of_match (v : pyval) (cf_records : list (gmap string scalar))
    (cf : gmap string scalar) :
  find_matching_record v cf_records = ok (Some cf) → found (Some cf) = true.
Proof.
  intros Hfind.
  destruct (find_matching_record_some _ _ _ Hfind)
    as (_ & y & n & t & cn & ct & _ & _ & _ & Hcn & _).
  cbn [found]. rewrite bool_decide_eq_false_2; [done |].
  intros ->. by rewrite lookup_empty in Hcn.
Qed.

Lemma body_no_op_addition cf_records filepath (y cf : gmap string scalar)
    (s0 : state P) :
  load filepath = ok (Dict y) →
  find_matching_record (Dict y) cf_records = ok (Some cf) →
  records_differ (Dict y) cf = ok false →
  turn_body Addition cf_records filepath s0
  = (inr (),
     State (provider s0)
       (trace s0 ++ [EPrint LAlreadyExists; EPrint LNoChangesNeeded])).
Proof.
  intros Hload Hfind Hdiff.
  unfold file_body, addition_body. lifted Hload. lifted Hfind.
  rewrite (found_of_match _ _ _ Hfind). rewrite bind_run, print_run.
  change (default ∅ (Some cf)) with cf.
  lifted Hdiff. rewrite print_run. finish.
Qed.

(** An added or modified file whose definition matches a live record it
    does not differ from is a no-op: no provider call, the provider as it
    was, and the line that nothing needs to change. *)
Theorem identical_is_no_op cf_records filepath (y cf : gmap string scalar)
    (s : state P) :
  load filepath = ok (Dict y) →
  find_matching_record (Dict y) cf_records = ok (Some cf) →
  records_differ (Dict y) cf = ok false →
  turn Addition cf_records filepath s
  = (inr (),
     State (provider s)
       (trace s ++ [EPrint (LProcessing Addition filepath);
                    EPrint LAlreadyExists; EPrint LNoChangesNeeded;
                    EPrint LBlank]))
  ∧ turn Modification cf_records filepath s
    = (inr (),
       State (provider s)
         (trace s ++ [EPrint (LProcessing Modification filepath);
                      EPrint LNoChangesNeeded; EPrint LBlank])).
Proof.
  intros Hload Hfind Hdiff. split.
  - rewrite (process_file_pass _ _ _ _ _ _ _ _ _
               (body_no_op_addition cf_records filepath y cf _
                  Hload Hfind Hdiff)).
    finish.
  - assert (turn_body Modification cf_records filepath
              (State (provider s)
                 (trace s ++ [EPrint (LProcessing Modification filepath)]))
            = (inr (), State (provider s)
                 ((trace s ++ [EPrint (LProcessing Modification filepath)])
                  ++ [EPrint LNoChangesNeeded]))) as Hb.
    { unfold file_body, modification_body. lifted Hload. lifted Hfind.
      rewrite (found_of_match _ _ _ Hfind).
      change (default ∅ (Some cf)) with cf. lifted Hdiff.
      by rewrite print_run. }
    rewrite (process_file_pass _ _ _ _ _ _ _ _ _ Hb). finish.
Qed.

(** An added or modified file whose definition differs from the live record
    it matches is updated: the data built from the definition is sent once,
    under the id of the matched record, and the turn ends with the update
    line or with the provider's error.  When the matched record has no id,
    the turn ends with the [KeyError] and nothing is sent. *)
Theorem differing_is_updated cf_records filepath (y cf : gmap string scalar)
    (s : state P) :
  load filepath = ok (Dict y) →
  find_matching_record (Dict y) cf_records = ok (Some cf) →
  records_differ (Dict y) cf = ok true →
  ∃ data n t,
    record_data (Dict y) = ok data
    ∧ y !! "name" = Some n ∧ y !! "type" = Some t
    ∧ match cf !! "id" with
      | Some rid =>
          turn Addition cf_records filepath s
          = (inr (),
             State (snd (http_write (PatchRecord rid data) (provider s)))
               (trace s ++
                [EPrint (LProcessing Addition filepath);
                 EPrint LAlreadyExists;
                 ECall (PatchRecord rid data);
                 EPrint (line_after
                           (fst (http_write (PatchRecord rid data) (provider s)))
                           (LUpdated n t));
                 EPrint LBlank]))
          ∧ turn Modification cf_records filepath s
            = (inr (),
               State (snd (http_write (PatchRecord rid data) (provider s)))
                 (trace s ++
                  [EPrint (LProcessing Modification filepath);
                   ECall (PatchRecord rid data);
                   EPrint (line_after
                             (fst (http_write (PatchRecord rid data) (provider s)))
                             (LUpdated n t));
                   EPrint LBlank]))
      | None =>
          turn Addition cf_records filepath s
          = (inr (),
             State (provider s)
               (trace s ++
                [EPrint (LProcessing Addition filepath);
                 EPrint LAlreadyExists;
                 EPrint (LError (KeyError "id")); EPrint LBlank]))
          ∧ turn Modification cf_records filepath s
            = (inr (),
               State (provider s)
                 (trace s ++
                  [EPrint (LProcessing Modification filepath);
                   EPrint (LError (KeyError "id")); EPrint LBlank]))
      end.
Proof.
  intros Hload Hfind Hdiff.
  destruct (load_yaml_record_sendable _ _ _ _ Hload)
    as (data & n & t & Hdata & Hn & Ht).
  exists data, n, t. split_and!; [done.. |].
  destruct (find_matching_record_some _ _ _ Hfind)
    as (_ & y' & _ & _ & cn & ct & _ & _ & _ & Hcn & _).
  assert (found (Some cf) = true) as Hfound.
  { cbn [found]. rewrite bool_decide_eq_false_2; [done |].
    intros ->. by rewrite lookup_empty in Hcn. }
  set (a0 := State (provider s)
               (trace s ++ [EPrint (LProcessing Addition filepath)])).
  set (a1 := State (provider s) (trace a0 ++ [EPrint LAlreadyExists])).
  set (m0 := State (provider s)
               (trace s ++ [EPrint (LProcessing Modification filepath)])).
  destruct (cf !! "id") as [rid |] eqn:Hid.
  - assert (dict_getitem cf "id" = ok rid) as Hrid
      by (unfold dict_getitem; by rewrite Hid).
    split.
    + assert (turn_body Addition cf_records filepath a0
              = (match fst (http_write (PatchRecord rid data) (provider s)) with
                 | inl e => inl e | inr _ => inr () end,
                 State (snd (http_write (PatchRecord rid data) (provider s)))
                   (trace a1 ++ [ECall (PatchRecord rid data)]
                    ++ match fst (http_write (PatchRecord rid data) (provider s)) with
                       | inr _ => [EPrint (LUpdated n t)]
                       | inl _ => []
                       end))) as Hb.
      { unfold file_body, addition_body. lifted Hload. lifted Hfind.
        rewrite Hfound. rewrite bind_run, print_run.
        change (default ∅ (Some cf)) with cf. lifted Hdiff. lifted Hrid.
        by rewrite (update_body_run y data n t rid _ Hdata Hn Ht). }
      destruct (http_write (PatchRecord rid data) (provider s))
        as [[e | resp] p']; cbn [fst snd] in Hb.
      * rewrite (process_file_catch _ _ _ _ _ _ _ _ _ _ Hb). subst a1 a0. finish.
      * rewrite (process_file_pass _ _ _ _ _ _ _ _ _ Hb). subst a1 a0. finish.
    + assert (turn_body Modification cf_records filepath m0
              = (match fst (http_write (PatchRecord rid data) (provider s)) with
                 | inl e => inl e | inr _ => inr () end,
                 State (snd (http_write (PatchRecord rid data) (provider s)))
                   (trace m0 ++ [ECall (PatchRecord rid data)]
                    ++ match fst (http_write (PatchRecord rid data) (provider s)) with
                       | inr _ => [EPrint (LUpdated n t)]
                       | inl _ => []
                       end))) as Hb.
      { unfold file_body, modification_body. lifted Hload. lifted Hfind.
        rewrite Hfound. change (default ∅ (Some cf)) with cf.
        lifted Hdiff. lifted Hrid.
        by rewrite (update_body_run y data n t rid _ Hdata Hn Ht). }
      destruct (http_write (PatchRecord rid data) (provider s))
        as [[e | resp] p']; cbn [fst snd] in Hb.
      * rewrite (process_file_catch _ _ _ _ _ _ _ _ _ _ Hb). subst m0. finish.
      * rewrite (process_file_pass _ _ _ _ _ _ _ _ _ Hb). subst m0. finish.
  - assert (dict_getitem cf "id" = raise (KeyError "id")) as Hrid
      by (unfold dict_getitem; by rewrite Hid).
    split.
    + assert (turn_body Addition cf_records filepath a0
              = (inl (KeyError "id"), a1)) as Hb.
      { unfold file_body, addition_body. lifted Hload. lifted Hfind.
        rewrite Hfound. rewrite bind_run, print_run.
        change (default ∅ (Some cf)) with cf. lifted Hdiff.
        rewrite bind_run. unfold lift at 1. by rewrite Hrid. }
      rewrite (process_file_catch _ _ _ _ _ _ _ _ _ _ Hb). subst a1 a0. finish.
    + assert (turn_body Modification cf_records filepath m0
              = (inl (KeyError "id"), m0)) as Hb.
      { unfold file_body, modification_body. lifted Hload. lifted Hfind.
        rewrite Hfound. change (default ∅ (Some cf)) with cf. lifted Hdiff.
        rewrite bind_run. unfold lift at 1. by rewrite Hrid. }
      rewrite (process_file_catch _ _ _ _ _ _ _ _ _ _ Hb). subst m0. finish.
Qed.

Lemma body_delete_matched cf_records filepath text
    (y cf : gmap string scalar) rid n t (s0 : state P) :
  git_show filepath = ok text → yaml_safe_load text = ok (Dict y) →
  find_matching_record (Dict y) cf_records = ok (Some cf) →
  cf !! "id" = Some rid → y !! "name" = Some n → y !! "type" = Some t →
  turn_body Deletion cf_records filepath s0
  = (match fst (http_write (DeleteRecord rid) (provider s0)) with
     | inl e => inl e | inr _ => inr () end,
     State (snd (http_write (DeleteRecord rid) (provider s0)))
       (trace s0 ++ [ECall (DeleteRecord rid)]
        ++ match fst (http_write (DeleteRecord rid) (provider s0)) with
           | inr _ => [EPrint (LDeleted n t)]
           | inl _ => []
           end)).
Proof.
  intros Hshow Hyaml Hfind Hid Hn Ht.
  assert (dict_getitem cf "id" = ok rid) as Hrid
    by (unfold dict_getitem; by rewrite Hid).
  assert (py_getitem (Dict y) "name" = ok n) as Hgn
    by (unfold py_getitem, dict_getitem; by rewrite Hn).
  assert (py_getitem (Dict y) "type" = ok t) as Hgt
    by (unfold py_getitem, dict_getitem; by rewrite Ht).
  unfold file_body, deletion_body. lifted Hshow. lifted Hyaml.
  lifted Hfind. rewrite (found_of_match _ _ _ Hfind).
  change (default ∅ (Some cf)) with cf.
  lifted Hrid. rewrite bind_run. unfold delete_record.
  rewrite bind_run. unfold send at 1.
  destruct (http_write (DeleteRecord rid) (provider s0)) as [[e | resp] p'];
    cbn [fst snd].
  - by rewrite app_nil_r.
  - unfold mret, M_ret. cbv beta iota. lifted Hgn. lifted Hgt.
    rewrite print_run. cbn [provider trace]. by rewrite <- app_assoc.
Qed.

(** A deleted file whose last definition matches a live record has that
    record deleted by its id, in one call; the turn ends with the deletion
    line or with the provider's error.  When the matched record has no id,
    the turn ends with the [KeyError] and nothing is sent. *)
Theorem matched_is_deleted cf_records filepath text (v : pyval)
    (cf : gmap string scalar) (s : state P) :
  git_show filepath = ok text → yaml_safe_load text = ok v →
  find_matching_record v cf_records = ok (Some cf) →
  ∃ n t,
    py_getitem v "name" = ok n ∧ py_getitem v "type" = ok t
    ∧ match cf !! "id" with
      | Some rid =>
          turn Deletion cf_records filepath s
          = (inr (),
             State (snd (http_write (DeleteRecord rid) (provider s)))
               (trace s ++
                [EPrint (LProcessing Deletion filepath);
                 ECall (DeleteRecord rid);
                 EPrint (line_after
                           (fst (http_write (DeleteRecord rid) (provider s)))
                           (LDeleted n t));
                 EPrint LBlank]))
      | None =>
          turn Deletion cf_records filepath s
          = (inr (),
             State (provider s)
               (trace s ++
                [EPrint (LProcessing Deletion filepath);
                 EPrint (LError (KeyError "id")); EPrint LBlank]))
      end.
Proof.
  intros Hshow Hyaml Hfind.
  destruct (find_matching_record_some _ _ _ Hfind)
    as (_ & y & n & t & cn & ct & -> & Hn & Ht & Hcn & _).
  exists n, t. split_and!.
  - unfold py_getitem, dict_getitem. by rewrite Hn.
  - unfold py_getitem, dict_getitem. by rewrite Ht.
  - set (s0 := State (provider s)
                 (trace s ++ [EPrint (LProcessing Deletion filepath)])).
    destruct (cf !! "id") as [rid |] eqn:Hid.
    + pose proof (body_delete_matched cf_records filepath text y cf rid n t
                    s0 Hshow Hyaml Hfind Hid Hn Ht) as Hb.
      change (provider s0) with (provider s) in Hb.
      destruct (http_write (DeleteRecord rid) (provider s))
        as [[e | resp] p']; cbn [fst snd] in Hb.
      * rewrite (process_file_catch _ _ _ _ _ _ _ _ _ _ Hb). subst s0. finish.
      * rewrite (process_file_pass _ _ _ _ _ _ _ _ _ Hb). subst s0. finish.
    + assert (dict_getitem cf "id" = raise (KeyError "id")) as Hrid
        by (unfold dict_getitem; by rewrite Hid).
      assert (turn_body Deletion cf_records filepath s0
              = (inl (KeyError "id"), s0)) as Hb.
      { unfold file_body, deletion_body. lifted Hshow. lifted Hyaml.
        lifted Hfind. rewrite (found_of_match _ _ _ Hfind).
        change (default ∅ (Some cf)) with cf.
        rewrite bind_run. unfold lift at 1. by rewrite Hrid. }
      rewrite (process_file_catch _ _ _ _ _ _ _ _ _ _ Hb). subst s0. finish.
Qed.

(** The deletion loop does not validate what it recovers: for a deleted
    file whose last definition is a mapping without [name], against live
    records that all have a name, the turn ends with the [KeyError] for
    [name], whether a live record exists or not, and nothing is sent. *)
Theorem deletion_without_name cf_records filepath text
    (y : gmap string scalar) (s : state P) :
  git_show filepath = ok text → yaml_safe_load text = ok (Dict y) →
  y !! "name" = None →
  Forall (fun cf : gmap string scalar => is_Some (cf !! "name")) cf_records →
  turn Deletion cf_records filepath s
  = (inr (),
     State (provider s)
       (trace s ++ [EPrint (LProcessing Deletion filepath);
                    EPrint (LError (KeyError "name")); EPrint LBlank])).
Proof.
  intros Hshow Hyaml Hname Hlive.
  set (s0 := State (provider s)
               (trace s ++ [EPrint (LProcessing Deletion filepath)])).
  assert (py_getitem (Dict y) "name" = raise (KeyError "name")) as Hgn
    by (unfold py_getitem, dict_getitem; by rewrite Hname).
  assert (turn_body Deletion cf_records filepath s0
          = (inl (KeyError "name"), s0)) as Hb.
  { unfold file_body, deletion_body. lifted Hshow. lifted Hyaml.
    rewrite bind_run. unfold lift at 1.
    destruct Hlive as [| c rest [cn Hcn] _].
    - cbn [find_matching_record]. unfold ok at 1. cbv beta iota.
      cbn [found]. rewrite bind_run. unfold lift at 1. by rewrite Hgn.
    - assert (find_matching_record (Dict y) (c :: rest)
              = raise (KeyError "name")) as ->; [| done].
      cbn [find_matching_record]. unfold py_getitem, dict_getitem.
      by rewrite Hcn, Hname. }
  rewrite (process_file_catch _ _ _ _ _ _ _ _ _ _ Hb). subst s0. finish.
Qed.

Lemma py_getitem_non_mapping (v : pyval) k :
  (∀ m, v ≠ Dict m) → py_getitem v k = raise TypeError.
Proof. intros Hv. destruct v as [sv | l | m]; [done | done |]. by destruct (Hv m). Qed.

Lemma create_record_non_mapping (v : pyval) (s : state P) :
  (∀ m, v ≠ Dict m) →
  create_record http_write v s = (inl TypeError, s).
Proof.
  intros Hv. unfold create_record, record_data.
  rewrite bind_run. unfold lift at 1.
  by rewrite (py_getitem_non_mapping v "type" Hv).
Qed.

(** A file whose document is no mapping never reaches the provider, in any
    of the three phases: the turn ends with an error line, the provider is
    as it was, and nothing is emitted before the error but, for a modified
    file against an empty snapshot, the line that the record was not
    found. *)
Theorem non_mapping_is_not_sent ph cf_records filepath text (v : pyval)
    (s : state P) :
  match ph with
  | Deletion => git_show filepath
  | _ => read_file filepath
  end = ok text →
  yaml_safe_load text = ok v →
  (∀ m, v ≠ Dict m) →
  ∃ e mid,
    turn ph cf_records filepath s
    = (inr (),
       State (provider s)
         (trace s ++ EPrint (LProcessing ph filepath) :: mid
          ++ [EPrint (LError e); EPrint LBlank]))
    ∧ (mid = [] ∨ mid = [EPrint LNotFoundWillCreate]).
Proof.
  intros Hsrc Hyaml Hv.
  set (s0 := State (provider s)
               (trace s ++ [EPrint (LProcessing ph filepath)])).
  assert (∃ e mid, turn_body ph cf_records filepath s0
                   = (inl e, State (provider s) (trace s0 ++ mid))
                   ∧ (mid = [] ∨ mid = [EPrint LNotFoundWillCreate]))
    as (e & mid & Hb & Hmid).
  { destruct ph.
    - unfold file_body, deletion_body. lifted Hsrc. lifted Hyaml.
      rewrite bind_run. unfold lift at 1.
      destruct (find_matching_record_non_mapping v cf_records Hv)
        as [-> | [e ->]].
      + unfold ok at 1. cbv beta iota. cbn [found].
        rewrite bind_run. unfold lift at 1.
        rewrite (py_getitem_non_mapping v "name" Hv).
        exists TypeError, []. split; [by rewrite app_nil_r | by left].
      + exists e, []. split; [by rewrite app_nil_r | by left].
    - unfold file_body, addition_body. rewrite bind_run. unfold lift at 1.
      rewrite (load_yaml_record_parsed _ _ _ _ _ Hsrc Hyaml).
      destruct (validate_record v filepath) as [e | r] eqn:Hval.
      { exists e, []. split; [by rewrite app_nil_r | by left]. }
      apply validate_record_ok in Hval as ->. cbv beta iota.
      rewrite bind_run. unfold lift at 1.
      destruct (find_matching_record_non_mapping v cf_records Hv)
        as [-> | [e ->]].
      + unfold ok at 1. cbv beta iota. cbn [found].
        rewrite bind_run, (create_record_non_mapping v _ Hv).
        exists TypeError, []. split; [by rewrite app_nil_r | by left].
      + exists e, []. split; [by rewrite app_nil_r | by left].
    - unfold file_body, modification_body. rewrite bind_run. unfold lift at 1.
      rewrite (load_yaml_record_parsed _ _ _ _ _ Hsrc Hyaml).
      destruct (validate_record v filepath) as [e | r] eqn:Hval.
      { exists e, []. split; [by rewrite app_nil_r | by left]. }
      apply validate_record_ok in Hval as ->. cbv beta iota.
      rewrite bind_run. unfold lift at 1.
      destruct (find_matching_record_non_mapping v cf_records Hv)
        as [-> | [e ->]].
      + unfold ok at 1. cbv beta iota. cbn [found].
        rewrite bind_run, print_run.
        rewrite bind_run, (create_record_non_mapping v _ Hv).
        exists TypeError, [EPrint LNotFoundWillCreate]. split; [done | by right].
      + exists e, []. split; [by rewrite app_nil_r | by left]. }
  exists e, mid. split; [| done].
  rewrite (process_file_catch _ _ _ _ _ _ _ _ _ _ Hb). subst s0. finish.
Qed.

(** ** The only per-file errors of a well-formed run *)

Lemma po_lift {A B} (r : result A) (x : A) (k : A → M P B) :
  r = ok x → Calls.provider_only http_write (k x) →
  Calls.provider_only http_write (lift r ≫= k).
Proof. intros -> Hk s e s1. rewrite bind_run. apply Hk. Qed.

Lemma po_bind {A B} (m : M P A) (k : A → M P B) :
  Calls.provider_only http_write m →
  (∀ a, Calls.provider_only http_write (k a)) →
  Calls.provider_only http_write (m ≫= k).
Proof.
  intros Hm Hk s e s1. rewrite bind_run.
  destruct (m s) as [[e' | a] s'] eqn:Hms.
  - intros [= <- <-]. by apply (Hm s e' s').
  - apply Hk.
Qed.

Lemma po_print (l : line) : Calls.provider_only http_write (print l : M P unit).
Proof. intros s e s1. by rewrite print_run. Qed.

Lemma po_send (r : request) : Calls.provider_only http_write (send http_write r).
Proof.
  intros s e s1. unfold send.
  destruct (http_write r (provider s)) as [[e' | a] p'] eqn:Hw; [| done].
  intros [= <- <-]. exists r, (provider s). by rewrite Hw.
Qed.

Lemma po_create (y data : gmap string scalar) :
  record_data (Dict y) = ok data →
  Calls.provider_only http_write (create_record http_write (Dict y)).
Proof. intros H. apply (po_lift _ data); [done | apply po_send]. Qed.

Lemma po_update (rid : scalar) (y data : gmap string scalar) :
  record_data (Dict y) = ok data →
  Calls.provider_only http_write (update_record http_write rid (Dict y)).
Proof. intros H. apply (po_lift _ data); [done | apply po_send]. Qed.

Lemma po_delete (rid : scalar) :
  Calls.provider_only http_write (delete_record http_write rid).
Proof.
  apply po_bind; [apply po_send |]. intros _ s e s1. done.
Qed.

Lemma records_differ_total (y cf : gmap string scalar) :
  is_Some (y !! "type") → ∃ b, records_differ (Dict y) cf = ok b.
Proof.
  intros [t Ht]. rewrite records_differ_dict, Ht.
  destruct (_ || _ || _); eauto.
Qed.

(** When the definition of an added or modified file loads as a mapping,
    or the last definition of a deleted file is a mapping with a name and a
    type, and every live record has a name, a type and an id, the body of
    the file's turn raises nothing of its own: an error it ends with is one
    the provider answered to a request. *)
Theorem mapping_fails_only_at_provider ph cf_records filepath
    (y : gmap string scalar) :
  match ph with
  | Deletion =>
      ∃ text, git_show filepath = ok text
              ∧ yaml_safe_load text = ok (Dict y)
              ∧ is_Some (y !! "name") ∧ is_Some (y !! "type")
  | _ => load filepath = ok (Dict y)
  end →
  Forall Calls.live_ok cf_records →
  Calls.provider_only http_write (turn_body ph cf_records filepath).
Proof.
  intros Hsrc Hlive.
  assert (Forall (fun cf => is_Some (cf !! "name") ∧ is_Some (cf !! "type"))
                 cf_records) as Hid.
  { eapply Forall_impl; [exact Hlive |]. by intros cf (? & ? & ?). }
  assert (∀ cf, find_matching_record (Dict y) cf_records = ok (Some cf) →
                found (Some cf) = true
                ∧ ∃ rid, dict_getitem cf "id" = ok rid) as Hmatch.
  { intros cf Hfind.
    destruct (find_matching_record_some _ _ _ Hfind) as (Hin & _).
    rewrite Forall_forall in Hlive.
    destruct (Hlive cf Hin) as ([cn Hcn] & _ & [rid Hrid]). split.
    - cbn [found]. rewrite bool_decide_eq_false_2; [done |].
      intros ->. by rewrite lookup_empty in Hcn.
    - exists rid. unfold dict_getitem. by rewrite Hrid. }
  destruct ph.
  - destruct Hsrc as (text & Hshow & Hyaml & [n Hn] & [t Ht]).
    destruct (find_matching_record_total y cf_records
                ltac:(eauto) ltac:(eauto) Hid) as [res Hfind].
    assert (py_getitem (Dict y) "name" = ok n) as Hgn
      by (unfold py_getitem, dict_getitem; by rewrite Hn).
    assert (py_getitem (Dict y) "type" = ok t) as Hgt
      by (unfold py_getitem, dict_getitem; by rewrite Ht).
    unfold file_body, deletion_body.
    apply (po_lift _ text); [done |]. apply (po_lift _ (Dict y)); [done |].
    apply (po_lift _ res); [done |].
    destruct res as [cf |].
    + destruct (Hmatch cf Hfind) as [-> [rid Hrid]].
      change (default ∅ (Some cf)) with cf.
      apply (po_lift _ rid); [done |].
      apply po_bind; [apply po_delete | intros _].
      apply (po_lift _ n); [done |]. apply (po_lift _ t); [done |].
      apply po_print.
    + cbn [found]. apply (po_lift _ n); [done |].
      apply (po_lift _ t); [done |]. apply po_print.
  - destruct (load_yaml_record_sendable _ _ _ _ Hsrc)
      as (data & n & t & Hdata & Hn & Ht).
    destruct (find_matching_record_total y cf_records
                ltac:(eauto) ltac:(eauto) Hid) as [res Hfind].
    assert (py_getitem (Dict y) "name" = ok n) as Hgn
      by (unfold py_getitem, dict_getitem; by rewrite Hn).
    assert (py_getitem (Dict y) "type" = ok t) as Hgt
      by (unfold py_getitem, dict_getitem; by rewrite Ht).
    unfold file_body, addition_body.
    apply (po_lift _ (Dict y)); [done |]. apply (po_lift _ res); [done |].
    destruct res as [cf |].
    + destruct (Hmatch cf Hfind) as [-> [rid Hrid]].
      change (default ∅ (Some cf)) with cf.
      apply po_bind; [apply po_print | intros _].
      destruct (records_differ_total y cf ltac:(eauto)) as [b Hb].
      apply (po_lift _ b); [done |]. destruct b; [| apply po_print].
      apply (po_lift _ rid); [done |].
      apply po_bind; [by apply (po_update _ _ data) | intros _].
      apply (po_lift _ n); [done |]. apply (po_lift _ t); [done |].
      apply po_print.
    + cbn [found]. apply po_bind; [by apply (po_create _ data) | intros _].
      apply (po_lift _ n); [done |]. apply (po_lift _ t); [done |].
      apply po_print.
  - destruct (load_yaml_record_sendable _ _ _ _ Hsrc)
      as (data & n & t & Hdata & Hn & Ht).
    destruct (find_matching_record_total y cf_records
                ltac:(eauto) ltac:(eauto) Hid) as [res Hfind].
    assert (py_getitem (Dict y) "name" = ok n) as Hgn
      by (unfold py_getitem, dict_getitem; by rewrite Hn).
    assert (py_getitem (Dict y) "type" = ok t) as Hgt
      by (unfold py_getitem, dict_getitem; by rewrite Ht).
    unfold file_body, modification_body.
    apply (po_lift _ (Dict y)); [done |]. apply (po_lift _ res); [done |].
    destruct res as [cf |].
    + destruct (Hmatch cf Hfind) as [-> [rid Hrid]].
      change (default ∅ (Some cf)) with cf.
      destruct (records_differ_total y cf ltac:(eauto)) as [b Hb].
      apply (po_lift _ b); [done |]. destruct b; [| apply po_print].
      apply (po_lift _ rid); [done |].
      apply po_bind; [by apply (po_update _ _ data) | intros _].
      apply (po_lift _ n); [done |]. apply (po_lift _ t); [done |].
      apply po_print.
    + cbn [found]. apply po_bind; [apply po_print | intros _].
      apply po_bind; [by apply (po_create _ data) | intros _].
      apply (po_lift _ n); [done |]. apply (po_lift _ t); [done |].
      apply po_print.
Qed.

(** ** At most one provider call per file *)


Lemma writes_app (a b : list event) :
  Calls.writes (a ++ b) = (Calls.writes a + Calls.writes b)%nat.
Proof. unfold Calls.writes. by rewrite List.filter_app, length_app. Qed.


















End Actions.

(** ** Whole runs *)

Section RunProperties.

Context {P : Type}.
Variable http_list : P → result (list (gmap string scalar)) * P.
Variable http_write : request → P → result (gmap string scalar) * P.
Variable git_diff : string → result string.
Variable git_show : string → result string.
Variable read_file : string → result string.
Variable yaml_safe_load : string → result pyval.
Variable records_dir : string.

Abbreviation the_sync :=
  (sync http_list http_write git_diff git_show read_file yaml_safe_load
        records_dir).



(** When the listing of the zone fails, the run ends there with the
    provider's error: no file is announced and nothing is written. *)
Theorem sync_snapshot_failure (s : state P) cs e p' :
  get_changed_files git_diff records_dir = ok cs →
  nothing_changed cs = false →
  http_list (provider s) = (raise e, p') →
  the_sync s
  = (inl e,
     State p'
       (trace s ++
        [EPrint LDetecting; EPrint LChangesDetected;
         EPrint (LCount Addition (size (added cs)));
         EPrint (LCount Modification (size (modified cs)));
         EPrint (LCount Deletion (size (deleted cs)));
         EPrint LBlank; EPrint LFetching; ECall GetRecords])).
Proof.
  intros Hcs Hne Hlist. unfold sync.
  rewrite bind_run, print_run, bind_run. unfold lift at 1. rewrite Hcs.
  unfold ok at 1. rewrite Hne.
  repeat (rewrite bind_run, print_run).
  cbn [provider trace]. rewrite bind_run. unfold list_records at 1.
  cbn [provider trace]. rewrite Hlist. unfold raise.
  repeat rewrite <- app_assoc. done.
Qed.


(** A run that raises has written nothing. *)
Lemma sync_raise_no_write (s s' : state P) e :
  the_sync s = (inl e, s') → Calls.writes (trace s') = Calls.writes (trace s).
Proof.
  destruct (get_changed_files git_diff records_dir) as [e' | cs] eqn:Hcs.
  - unfold sync. rewrite bind_run, print_run, bind_run. unfold lift at 1.
    rewrite Hcs. intros [= <- <-]. cbn [trace]. rewrite writes_app.
    cbn. lia.
  - destruct (nothing_changed cs) eqn:Hnc.
    + unfold sync. rewrite bind_run, print_run, bind_run. unfold lift at 1.
      rewrite Hcs. by rewrite Hnc, print_run.
    + destruct (http_list (provider s)) as [[e' | cf] p'] eqn:Hlist.
      * unfold sync.
        rewrite bind_run, print_run, bind_run. unfold lift at 1. rewrite Hcs.
        rewrite Hnc.
        repeat (rewrite bind_run, print_run).
        cbn [provider trace]. rewrite bind_run. unfold list_records at 1.
        cbn [provider trace]. rewrite Hlist.
        intros [= <- <-]. cbn [trace]. rewrite !writes_app. cbn. lia.
      * destruct (sync_blocks http_list http_write git_diff git_show read_file
                    yaml_safe_load records_dir s cs cf p' Hcs Hnc Hlist)
          as (bd & ba & bm & s1 & Hrun & _).
        by rewrite Hrun.
Qed.

(** The snapshot is not refreshed during a run.  When a file is deleted and
    another file is added with a definition that matches the same live
    record and does not differ from it, the run deletes the record and
    then, comparing the added file against the record it fetched before,
    reports that nothing needs to change: the record is not created
    again. *)
Theorem snapshot_is_not_refreshed (s : state P) f_old f_new text
    (y cf : gmap string scalar) rid cf_records p1 :
  get_changed_files git_diff records_dir = ok (Changes {[f_new]} ∅ {[f_old]}) →
  http_list (provider s) = (ok cf_records, p1) →
  git_show f_old = ok text → yaml_safe_load text = ok (Dict y) →
  load_yaml_record read_file yaml_safe_load f_new = ok (Dict y) →
  find_matching_record (Dict y) cf_records = ok (Some cf) →
  cf !! "id" = Some rid →
  records_differ (Dict y) cf = ok false →
  ∃ n t,
    y !! "name" = Some n ∧ y !! "type" = Some t
    ∧ the_sync s
      = (inr (),
         State (snd (http_write (DeleteRecord rid) p1))
           (trace s
            ++ Report.preamble (Changes {[f_new]} ∅ {[f_old]}) cf_records
            ++ [EPrint (LProcessing Deletion f_old);
                ECall (DeleteRecord rid);
                EPrint (line_after (fst (http_write (DeleteRecord rid) p1))
                                   (LDeleted n t));
                EPrint LBlank;
                EPrint (LProcessing Addition f_new);
                EPrint LAlreadyExists; EPrint LNoChangesNeeded;
                EPrint LBlank;
                EPrint LSyncComplete])).
Proof.
  intros Hcs Hlist Hshow Hyaml Hload Hfind Hid Hdiff.
  destruct (find_matching_record_some _ _ _ Hfind)
    as (_ & y' & n & t & _ & _ & [= <-] & Hn & Ht & _).
  exists n, t. split_and!; [done.. |].
  assert (nothing_changed (Changes {[f_new]} ∅ {[f_old]}) = false) as Hne.
  { unfold nothing_changed. cbn [added modified deleted].
    rewrite (bool_decide_eq_false_2 ({[f_new]} = ∅)); [done |].
    apply non_empty_singleton_L. }
  unfold sync.
  rewrite bind_run, print_run, bind_run. unfold lift at 1. rewrite Hcs.
  unfold ok at 1. rewrite Hne.
  repeat (rewrite bind_run, print_run).
  cbn [provider trace]. rewrite bind_run. unfold list_records at 1.
  cbn [provider trace]. rewrite Hlist. unfold ok at 1.
  repeat (rewrite bind_run, print_run). cbn [provider trace].
  cbn [added modified deleted].
  rewrite !elements_singleton, elements_empty. cbn [for_each].
  set (s1 := State p1 _).
  pose proof (body_delete_matched http_write git_show read_file yaml_safe_load
                cf_records f_old text y cf rid n t
                (State (provider s1)
                   (trace s1 ++ [EPrint (LProcessing Deletion f_old)]))
                Hshow Hyaml Hfind Hid Hn Ht) as Hdel.
  cbn [provider] in Hdel. change (provider s1) with p1 in Hdel.
  rewrite bind_run, bind_run.
  destruct (http_write (DeleteRecord rid) p1) as [[e | resp] p2];
    cbn [fst snd line_after] in *.
  - rewrite (process_file_catch http_write git_show read_file yaml_safe_load
               Deletion cf_records f_old s1 _ _ Hdel).
    unfold mret at 1, M_ret at 1. rewrite bind_run, bind_run.
    rewrite (process_file_pass _ _ _ _ _ _ _ _ _
               (body_no_op_addition http_write git_show read_file
                  yaml_safe_load cf_records f_new y cf _ Hload Hfind Hdiff)).
    unfold mret at 1, M_ret at 1. rewrite bind_run.
    unfold mret at 1, M_ret at 1. rewrite print_run.
    subst s1. cbn [provider trace]. unfold Report.preamble.
    cbn [added modified deleted]. rewrite ?app_nil_r.
    repeat rewrite <- app_assoc. done.
  - rewrite (process_file_pass http_write git_show read_file yaml_safe_load
               Deletion cf_records f_old s1 _ Hdel).
    unfold mret at 1, M_ret at 1. rewrite bind_run, bind_run.
    rewrite (process_file_pass _ _ _ _ _ _ _ _ _
               (body_no_op_addition http_write git_show read_file
                  yaml_safe_load cf_records f_new y cf _ Hload Hfind Hdiff)).
    unfold mret at 1, M_ret at 1. rewrite bind_run.
    unfold mret at 1, M_ret at 1. rewrite print_run.
    subst s1. cbn [provider trace]. unfold Report.preamble.
    cbn [added modified deleted]. repeat rewrite <- app_assoc. done.
Qed.

End RunProperties.

(** ** The first commit *)



(** ** [main] *)

Section MainProperties.

Context {P : Type}.
Variable http_list_as :
  string → string → P → result (list (gmap string scalar)) * P.
Variable http_write_as :
  string → string → request → P → result (gmap string scalar) * P.
Variable getenv : string → option string.
Variable git_diff : string → result string.
Variable git_show : string → result string.
Variable read_file : string → result string.
Variable yaml_safe_load : string → result pyval.

Abbreviation the_main :=
  (main http_list_as http_write_as getenv git_diff git_show read_file
        yaml_safe_load).

Lemma main_writes_sync (evs : list event) :
  Calls.main_writes (InSync <$> evs) = Calls.writes evs.
Proof.
  unfold Calls.main_writes, Calls.writes.
  induction evs as [| ev evs IH]; [done |].
  rewrite fmap_cons. simpl. destruct (Calls.is_write ev); simpl; by rewrite IH.
Qed.

Lemma main_writes_app (a b : list main_event) :
  Calls.main_writes (a ++ b) = (Calls.main_writes a + Calls.main_writes b)%nat.
Proof. unfold Calls.main_writes. by rewrite List.filter_app, length_app. Qed.

(** With both environment variables set, [main] ends with status 0 as soon
    as the change set was obtained and, when it is not empty, the zone was
    listed: whatever happens to the single files, the run is complete. *)
Theorem main_completes (p : P) token zone cs :
  getenv "CLOUDFLARE_API_TOKEN" = Some token → token ≠ "" →
  getenv "CLOUDFLARE_ZONE_ID" = Some zone → zone ≠ "" →
  get_changed_files git_diff "records" = ok cs →
  (nothing_changed cs = false →
   ∃ cf_records p', http_list_as token zone p = (ok cf_records, p')) →
  ∃ p'' evs,
    the_main p = (0%nat, p'', evs)
    ∧ (nothing_changed cs = false →
       last evs = Some (InSync (EPrint LSyncComplete))).
Proof.
  intros Htok Htok' Hzone Hzone' Hcs Hlist. unfold main.
  rewrite Htok, Hzone. cbn [unset default from_option id].
  apply String.eqb_neq in Htok', Hzone'. rewrite Htok', Hzone'. cbn [orb].
  destruct (nothing_changed cs) eqn:Hnc.
  - unfold sync. rewrite bind_run, print_run, bind_run. unfold lift at 1.
    rewrite Hcs. unfold ok at 1. rewrite Hnc, print_run.
    eexists _, _. split; [reflexivity | done].
  - destruct (Hlist eq_refl) as (cf & p' & Hl).
    destruct (sync_blocks (http_list_as token zone) (http_write_as token zone)
                git_diff git_show read_file yaml_safe_load "records"
                (State p []) cs cf p' Hcs Hnc Hl)
      as (bd & ba & bm & s' & Hrun & Htr & _).
    rewrite Hrun. eexists _, _. split; [reflexivity |]. intros _.
    rewrite Htr, !app_assoc, fmap_app. apply last_snoc.
Qed.

(** When [main] ends with status 1, no record was created, updated or
    deleted: the process fails only for want of an environment variable or
    on the change report or the listing, all before the first write. *)
Theorem main_failure_wrote_nothing (p : P) :
  fst (fst (the_main p)) = 1%nat →
  Calls.main_writes (snd (the_main p)) = 0%nat.
Proof.
  unfold main.
  destruct (unset (getenv "CLOUDFLARE_API_TOKEN")
            || unset (getenv "CLOUDFLARE_ZONE_ID")); [done |].
  destruct (sync _ _ _ _ _ _ _ _) as [[e | []] s'] eqn:Hrun; [| done].
  intros _. cbn [snd]. rewrite main_writes_app, main_writes_sync.
  by rewrite (sync_raise_no_write _ _ _ _ _ _ _ _ _ _ Hrun).
Qed.

End MainProperties.

(** ** The further properties on the small world *)

Lemma unmatched_is_created_witness :
  ∃ data n t,
    record_data (Dict Sample.api_def) = ok data
    ∧ Sample.api_def !! "name" = Some n ∧ Sample.api_def !! "type" = Some t
    ∧ process_file Sample.http_write Sample.git_show Sample.read_file
        Sample.yaml_safe_load Addition [] "records/api.yaml" (State 0%nat [])
      = (inr (),
         State 1%nat
           [EPrint (LProcessing Addition "records/api.yaml");
            ECall (PostRecord data);
            EPrint (LCreated n t); EPrint LBlank]).
Proof.
  destruct (unmatched_is_created Sample.http_write Sample.git_show
              Sample.read_file Sample.yaml_safe_load [] "records/api.yaml"
              Sample.api_def (State 0%nat []) eq_refl eq_refl)
    as (data & n & t & Hdata & Hn & Ht & Hadd & _).
  exists data, n, t. split_and!; [done.. |]. exact Hadd.
Defined.

Lemma identical_is_no_op_witness :
  process_file Sample.http_write Sample.git_show Sample.read_file
    Sample.yaml_safe_load Modification Sample.snapshot "records/api.yaml"
    (State 0%nat [])
  = (inr (),
     State 0%nat
       [EPrint (LProcessing Modification "records/api.yaml");
        EPrint LNoChangesNeeded; EPrint LBlank]).
Proof.
  exact (proj2 (identical_is_no_op Sample.http_write Sample.git_show
                  Sample.read_file Sample.yaml_safe_load Sample.snapshot
                  "records/api.yaml" Sample.api_def Sample.api_live
                  (State 0%nat []) eq_refl eq_refl eq_refl)).
Defined.

Lemma differing_is_updated_witness :
  ∃ data n t,
    record_data (Dict Sample.mail_def) = ok data
    ∧ Sample.mail_def !! "name" = Some n ∧ Sample.mail_def !! "type" = Some t
    ∧ process_file Sample.http_write Sample.git_show Sample.read_file
        Sample.yaml_safe_load Modification Sample.snapshot "records/mail.yaml"
        (State 0%nat [])
      = (inr (),
         State 1%nat
           [EPrint (LProcessing Modification "records/mail.yaml");
            ECall (PatchRecord (SStr "rec-2") data);
            EPrint (LUpdated n t); EPrint LBlank]).
Proof.
  destruct (differing_is_updated Sample.http_write Sample.git_show
              Sample.read_file Sample.yaml_safe_load Sample.snapshot
              "records/mail.yaml" Sample.mail_def Sample.mail_live
              (State 0%nat []) eq_refl eq_refl eq_refl)
    as (data & n & t & Hdata & Hn & Ht & Hturn).
  exists data, n, t. split_and!; [done.. |].
  change (Sample.mail_live !! "id") with (Some (SStr "rec-2")) in Hturn.
  exact (proj2 Hturn).
Defined.

Lemma matched_is_deleted_witness :
  ∃ n t,
    py_getitem (Dict Sample.old_def) "name" = ok n
    ∧ py_getitem (Dict Sample.old_def) "type" = ok t
    ∧ process_file Sample.http_write Sample.git_show Sample.read_file
        Sample.yaml_safe_load Deletion [Sample.old_live] "records/old.yaml"
        (State 0%nat [])
      = (inr (),
         State 1%nat
           [EPrint (LProcessing Deletion "records/old.yaml");
            ECall (DeleteRecord (SStr "rec-3"));
            EPrint (LDeleted n t); EPrint LBlank]).
Proof.
  destruct (matched_is_deleted Sample.http_write Sample.git_show
              Sample.read_file Sample.yaml_safe_load [Sample.old_live]
              "records/old.yaml" "old" (Dict Sample.old_def) Sample.old_live
              (State 0%nat []) eq_refl eq_refl eq_refl)
    as (n & t & Hn & Ht & Hturn).
  exists n, t. split_and!; [done.. |].
  change (Sample.old_live !! "id") with (Some (SStr "rec-3")) in Hturn.
  exact Hturn.
Defined.

Lemma non_mapping_is_not_sent_witness :
  ∃ e mid,
    process_file Sample.http_write Sample.git_show Sample.read_file
      Sample.yaml_safe_load Addition Sample.snapshot "records/note.yaml"
      (State 0%nat [])
    = (inr (),
       State 0%nat
         ([] ++ EPrint (LProcessing Addition "records/note.yaml") :: mid
          ++ [EPrint (LError e); EPrint LBlank]))
    ∧ (mid = [] ∨ mid = [EPrint LNotFoundWillCreate]).
Proof.
  refine (non_mapping_is_not_sent Sample.http_write Sample.git_show
            Sample.read_file Sample.yaml_safe_load Addition Sample.snapshot
            "records/note.yaml" "name type content"
            (Scalar (SStr "name type content")) (State 0%nat [])
            eq_refl eq_refl _).
  intros m Hm. discriminate Hm.
Defined.

Lemma mapping_fails_only_at_provider_witness :
  Calls.provider_only Sample.http_write
    (file_body Sample.http_write Sample.git_show Sample.read_file
       Sample.yaml_safe_load Addition Sample.snapshot "records/api.yaml").
Proof.
  refine (mapping_fails_only_at_provider Sample.http_write Sample.git_show
            Sample.read_file Sample.yaml_safe_load Addition Sample.snapshot
            "records/api.yaml" Sample.api_def eq_refl _).
  repeat constructor; by eexists.
Defined.


Lemma sync_snapshot_failure_witness :
  sync Sample.http_list_down Sample.http_write Sample.git_diff Sample.git_show
       Sample.read_file Sample.yaml_safe_load "records" (State 0%nat [])
  = (inl (ExternalError "HTTPError"),
     State 0%nat
       [EPrint LDetecting; EPrint LChangesDetected;
        EPrint (LCount Addition 1); EPrint (LCount Modification 3);
        EPrint (LCount Deletion 1); EPrint LBlank; EPrint LFetching;
        ECall GetRecords]).
Proof.
  exact (sync_snapshot_failure Sample.http_list_down Sample.http_write
           Sample.git_diff Sample.git_show Sample.read_file
           Sample.yaml_safe_load "records" (State 0%nat [])
           Sample.run_changes (ExternalError "HTTPError") 0%nat
           eq_refl eq_refl eq_refl).
Defined.


Lemma main_completes_witness :
  ∃ p'' evs,
    main (fun _ _ => Sample.http_list) (fun _ _ => Sample.http_write)
         Sample.getenv Sample.git_diff Sample.git_show Sample.read_file
         Sample.yaml_safe_load 0%nat
    = (0%nat, p'', evs)
    ∧ (nothing_changed Sample.run_changes = false →
       last evs = Some (InSync (EPrint LSyncComplete))).
Proof.
  apply (main_completes (fun _ _ => Sample.http_list)
           (fun _ _ => Sample.http_write) Sample.getenv Sample.git_diff
           Sample.git_show Sample.read_file Sample.yaml_safe_load 0%nat
           "token" "zone" Sample.run_changes eq_refl);
    [discriminate | reflexivity | discriminate | reflexivity |].
  intros _. by exists Sample.snapshot, 0%nat.
Defined.

Lemma main_failure_wrote_nothing_witness :
  Calls.main_writes
    (snd (main (fun _ _ => Sample.http_list) (fun _ _ => Sample.http_write)
               Sample.no_env Sample.git_diff Sample.git_show Sample.read_file
               Sample.yaml_safe_load 0%nat))
  = 0%nat.
Proof.
  exact (main_failure_wrote_nothing (fun _ _ => Sample.http_list)
           (fun _ _ => Sample.http_write) Sample.no_env Sample.git_diff
           Sample.git_show Sample.read_file Sample.yaml_safe_load 0%nat
           eq_refl).
Defined.

Lemma deletion_without_name_witness :
  process_file Sample.http_write (fun _ => ok "old") Sample.read_file
    (fun _ => ok (Dict (delete "name" Sample.old_def)))
    Deletion Sample.snapshot "records/old.yaml" (State 0%nat [])
  = (inr (),
     State 0%nat
       [EPrint (LProcessing Deletion "records/old.yaml");
        EPrint (LError (KeyError "name")); EPrint LBlank]).
Proof.
  refine (deletion_without_name Sample.http_write (fun _ => ok "old")
            Sample.read_file
            (fun _ => ok (Dict (delete "name" Sample.old_def)))
            Sample.snapshot "records/old.yaml" "old"
            (delete "name" Sample.old_def) (State 0%nat [])
            eq_refl eq_refl eq_refl _).
  repeat constructor; by eexists.
Defined.

Lemma snapshot_is_not_refreshed_witness :
  ∃ n t,
    Sample.api_def !! "name" = Some n ∧ Sample.api_def !! "type" = Some t
    ∧ sync Sample.http_list Sample.http_write
        (fun _ => ok (Sample.report_line "D" "records/old.yaml"
                      +:+ Sample.report_line "A" "records/api.yaml"))
        (fun _ => ok "api") Sample.read_file Sample.yaml_safe_load
        "records" (State 0%nat [])
      = (inr (),
         State 1%nat
           (Report.preamble
              (Changes {["records/api.yaml"]} ∅ {["records/old.yaml"]})
              Sample.snapshot
            ++ [EPrint (LProcessing Deletion "records/old.yaml");
                ECall (DeleteRecord (SStr "rec-1"));
                EPrint (LDeleted n t);
                EPrint LBlank;
                EPrint (LProcessing Addition "records/api.yaml");
                EPrint LAlreadyExists; EPrint LNoChangesNeeded;
                EPrint LBlank;
                EPrint LSyncComplete])).
Proof.
  exact (snapshot_is_not_refreshed Sample.http_list Sample.http_write
           (fun _ => ok (Sample.report_line "D" "records/old.yaml"
                         +:+ Sample.report_line "A" "records/api.yaml"))
           (fun _ => ok "api") Sample.read_file Sample.yaml_safe_load
           "records" (State 0%nat []) "records/old.yaml" "records/api.yaml"
           "api" Sample.api_def Sample.api_live (SStr "rec-1")
           Sample.snapshot 0%nat
           eq_refl eq_refl eq_refl eq_refl eq_refl eq_refl eq_refl eq_refl).
Defined.
